(** * Bing daily wallpaper collector: a shallow embedding of [src/main.py]

    The collector is a linear script: one HTTP GET for JSON metadata, string
    formatting that derives a file name, an existence check, one HTTP GET for
    the image, and an overwrite of [README.md].  The embedding follows the
    source function by function:

    - Python [str] values are lists of Unicode code points ([list N]);
    - exceptions are an inductive type, and the methods live in a small
      state-and-exception monad over a world made of the file system, the log
      and the trace of HTTP requests;
    - everything the script reads from outside (its own location, the date,
      the answers of the network, faults of the operating system) is a field
      of an environment record.

    Limits of the model.  A decoded JSON body has the shape the script
    reads (a dictionary of arrays of dictionaries of strings): a body that is
    not JSON, or whose values have other types, raises exceptions of other
    classes and is not represented.  [session.get] either raises a
    [RequestException] or returns a response.  The file system has regular
    files and directories only, and text files use the line ending of
    POSIX.  A name the operating system rejects (too long, with a NUL) is
    not represented: [Path.exists] answers for every path. *)

From Stdlib Require Import NArith ZArith Ascii String DecimalString.
From stdpp Require Import base option list gmap.

Local Open Scope N_scope.

(** ** Python strings *)

Module PyStr.

(** A [str] is a sequence of code points. *)
Abbreviation pystr := (list N).

(** An ASCII literal of the source, character by character. *)
Definition py (s : string) : pystr := map N_of_ascii (list_ascii_of_string s).

(** [str.isspace] on one code point: the characters [str.strip()] removes
    (CPython's [Py_UNICODE_ISSPACE]). *)
Definition isspace (c : N) : bool :=
  ((9 <=? c) && (c <=? 13)) || ((28 <=? c) && (c <=? 32))
  || (c =? 0x85) || (c =? 0xA0) || (c =? 0x1680)
  || ((0x2000 <=? c) && (c <=? 0x200A))
  || (c =? 0x2028) || (c =? 0x2029) || (c =? 0x202F) || (c =? 0x205F)
  || (c =? 0x3000).

(** [str.lstrip()]. *)
Fixpoint lstrip (s : pystr) : pystr :=
  match s with
  | [] => []
  | c :: t => if isspace c then lstrip t else s
  end.

(** [str.rstrip()]. *)
Fixpoint rstrip (s : pystr) : pystr :=
  match s with
  | [] => []
  | c :: t =>
      match rstrip t with
      | [] => if isspace c then [] else [c]
      | t' => c :: t'
      end
  end.

(** [str.strip()]: whitespace removed at both ends. *)
Definition strip (s : pystr) : pystr := rstrip (lstrip s).

(** [s.split(sep)[0]] for a one-character separator: the part of [s] before
    the first [sep], all of [s] when there is none. *)
Fixpoint split_first (sep : N) (s : pystr) : pystr :=
  match s with
  | [] => []
  | c :: t => if c =? sep then [] else c :: split_first sep t
  end.

(** Membership in a character class. *)
Definition in_class (cls : list N) (c : N) : bool := existsb (N.eqb c) cls.

(** [re.sub] of a character class by the empty string: every character of
    the class is deleted. *)
Fixpoint re_sub_class (cls : list N) (s : pystr) : pystr :=
  match s with
  | [] => []
  | c :: t => if in_class cls c then re_sub_class cls t else c :: re_sub_class cls t
  end.

(** [str(n)] for a non-negative integer. *)
Definition str_of_N (n : N) : pystr := py (NilEmpty.string_of_uint (N.to_uint n)).

Definition isdigit (c : N) : bool := (48 <=? c) && (c <=? 57).

(** Whether a string starts, or ends, with a whitespace character. *)
Definition head_isspace (s : pystr) : bool :=
  match head s with
  | Some c => isspace c
  | None => false
  end.

Definition last_isspace (s : pystr) : bool :=
  match last s with
  | Some c => isspace c
  | None => false
  end.

End PyStr.
Import PyStr.

(** ** Constants of the module *)

Definition BING_BASE_URL : pystr := py "https://www.bing.com".
Definition BING_API_URL : pystr := py "https://www.bing.com/HPImageArchive.aspx".

(** The character class of the regular expression in [_clean_filename]:
    backslash, slash, star, question mark, colon, double quote, less-than,
    greater-than and vertical bar. *)
Definition forbidden_chars : list N := [92; 47; 42; 63; 58; 34; 60; 62; 124].

(** [BingWallpaperCollector._clean_filename]: the characters of the class
    are deleted by [re.sub], then the result is stripped. *)
Definition _clean_filename (text : pystr) : pystr :=
  strip (re_sub_class forbidden_chars text).

(** [WallpaperData]. *)
Record WallpaperData := {
  date_str : pystr;
  image_url : pystr;
  title : pystr;
  copyright : pystr;
  filename : pystr
}.

(** The body of [_fetch_metadata] after the three fields have been read from
    the first entry of [images]. *)
Definition build_record (url_suffix copyright_text date_str : pystr) : WallpaperData :=
  let full_url := BING_BASE_URL ++ url_suffix in
  let title_clean := _clean_filename (strip (split_first 40 copyright_text)) in
  let formatted_date :=
    take 4 date_str ++ py "-" ++ take 2 (drop 4 date_str) ++ py "-" ++ drop 6 date_str in
  let filename := formatted_date ++ py "_" ++ title_clean ++ py ".jpg" in
  {| date_str := formatted_date;
     image_url := full_url;
     title := copyright_text;
     copyright := copyright_text;
     filename := filename |}.

(** The shape [YYYY-MM-DD]: four digits, a hyphen, two digits, a hyphen, two
    digits. *)
Definition is_date_pattern (s : pystr) : bool :=
  match s with
  | [y1; y2; y3; y4; h1; m1; m2; h2; d1; d2] =>
      forallb isdigit [y1; y2; y3; y4; m1; m2; d1; d2] && (h1 =? 45) && (h2 =? 45)
  | _ => false
  end.

(** The file name as the specification words it: the date with hyphens
    inserted after characters 4 and 6, an underscore, the part of the caption
    before the first parenthesis, trimmed, with the forbidden characters
    removed, and the extension.  Used only to compare with [build_record]. *)
Definition insert_hyphens (enddate : pystr) : pystr :=
  take 4 enddate ++ py "-" ++ take 2 (drop 4 enddate) ++ py "-" ++ drop 6 enddate.

Definition spec_filename (caption enddate : pystr) : pystr :=
  insert_hyphens enddate ++ py "_"
  ++ re_sub_class forbidden_chars (strip (split_first 40 caption))
  ++ py ".jpg".

(** ** Paths and the file system

    A path is absolute and held as its components below the root, as
    [pathlib] holds them; the file system maps a path to what is there.
    Symbolic links and the resolution of [..] by the operating system are
    outside the model: two paths are the same place when their components
    are equal. *)

Module FileSystem.

Abbreviation Path := (list (list N)).
Abbreviation bytes := (list Byte.byte).

Inductive node :=
| File (data : bytes)
| Dir.

Abbreviation FS := (gmap (list (list N)) node).

(** [s.split(sep)] for a one-character separator. *)
Fixpoint split_on (sep : N) (s : pystr) : list pystr :=
  match s with
  | [] => [[]]
  | c :: t =>
      if c =? sep then [] :: split_on sep t
      else match split_on sep t with
           | [] => [[c]]
           | h :: r => (c :: h) :: r
           end
  end.

Definition is_part (part : pystr) : bool :=
  negb (bool_decide (part = [])) && negb (bool_decide (part = py ".")).

(** The components [pathlib] keeps of one string segment: empty components
    and [.] are dropped, [..] is kept. *)
Definition parse_parts (s : pystr) : list pystr :=
  List.filter is_part (split_on 47 s).

(** [path / s]: an absolute segment replaces the path. *)
Definition joinpath (path : Path) (s : pystr) : Path :=
  match s with
  | 47 :: _ => parse_parts s
  | _ => path ++ parse_parts s
  end.

(** [path.parent]; the root is its own parent. *)
Definition parent (path : Path) : Path := removelast path.

(** [path.parents]: the proper ancestors, nearest first, the root last. *)
Definition parents (path : Path) : list Path :=
  rev (map (fun n => take n path) (seq 0 (length path))).

(** What is at a path; the root always is a directory. *)
Definition fs_lookup (fs : FS) (path : Path) : option node :=
  match path with
  | [] => Some Dir
  | _ => fs !! path
  end.

(** [path.exists()]. *)
Definition path_exists (fs : FS) (path : Path) : bool :=
  match fs_lookup fs path with
  | Some _ => true
  | None => false
  end.

Definition is_dir (fs : FS) (path : Path) : bool :=
  match fs_lookup fs path with
  | Some Dir => true
  | _ => false
  end.

(** The content of the regular file at a path, if there is one. *)
Definition read_file (fs : FS) (path : Path) : option bytes :=
  match fs_lookup fs path with
  | Some (File data) => Some data
  | _ => None
  end.

End FileSystem.
Import FileSystem.

(** ** Exceptions, results and the world *)

(** The exception classes the script can meet.  [RequestException] stands for
    [requests.RequestException] and all its subclasses ([ConnectionError],
    [Timeout], [HTTPError], ...); [OSError] for [OSError] and its subclasses
    ([IOError] is the same class in Python 3). *)
Inductive exn :=
| RequestException
| KeyError
| IndexError
| OSError
| UnicodeEncodeError
| SystemExit (code : Z).

(** [isinstance(e, Exception)]: [SystemExit] derives from [BaseException]
    only. *)
Definition is_Exception (e : exn) : bool :=
  match e with
  | SystemExit _ => false
  | _ => true
  end.

Inductive res (A : Type) :=
| Ok (a : A)
| Raise (e : exn).
Arguments Ok {A} a.
Arguments Raise {A} e.

Inductive level := DEBUG | INFO | SUCCESS | WARNING | ERROR.

(** The log lines of the script, one constructor per call of the logger. *)
Inductive message :=
| DetectedProjectRoot (root : Path)
| StartingCollector (market : pystr)
| NoMetadataFetched
| FileAlreadyExists (save_path : Path)
| CriticalError (e : exn)
| FetchingMetadata
| MetadataFetched (filename : pystr)
| ErrorFetchingMetadata (e : exn)
| DownloadingImage (url : pystr)
| ImageSaved (save_path : Path)
| FailedToDownload (e : exn)
| ReadmeUpdated
| FailedToWriteReadme (e : exn).

(** ** The network *)

Record Request := {
  req_url : pystr;
  req_params : list (pystr * pystr);
  req_timeout : N
}.

(** A response: its status, its body as bytes ([resp.content]) and the value
    [resp.json()] returns for it.  The JSON decoder is not modelled; the
    decoded body has the shape the script reads: a dictionary whose values
    are arrays of dictionaries from strings to strings. *)
Record Response := {
  status_code : N;
  content : bytes;
  json : gmap (list N) (list (gmap (list N) (list N)))
}.

(** [session.get] raises a [RequestException] or returns a response. *)
Inductive http_outcome :=
| GetRaises
| GetReturns (resp : Response).

(** [Response.raise_for_status] of the requests library: an [HTTPError] for
    a status from 400 to 599, nothing otherwise. *)
Definition raise_for_status (resp : Response) : res unit :=
  if (400 <=? status_code resp) && (status_code resp <? 600)
  then Raise RequestException
  else Ok tt.

(** A fault of the operating system when a file is opened for writing:
    the open is refused, or the write stops after some bytes. *)
Inductive io_fault :=
| NoFault
| OpenFault
| WriteFault (written : nat).

(** What one run reads from outside. *)
Record Env := {
  script_path : Path;                 (* Path(__file__).resolve() *)
  today_year : N;                     (* date.today().year *)
  http_get : Request -> http_outcome; (* the answer of session.get *)
  io_fault_at : Path -> io_fault
}.

(** What one run changes. *)
Record World := {
  fs : gmap (list (list N)) node;
  log : list (level * message);
  sent : list Request
}.

(** ** The monad of the methods: state and exceptions *)

Definition M (A : Type) : Type := World -> res A * World.

Definition ret {A} (a : A) : M A := fun w => (Ok a, w).

Definition bind {A B} (m : M A) (k : A -> M B) : M B :=
  fun w =>
    match m w with
    | (Ok a, w') => k a w'
    | (Raise e, w') => (Raise e, w')
    end.

Definition raise {A} (e : exn) : M A := fun w => (Raise e, w).

(** [try: body  except <classes> as e: handler e]. *)
Definition try_except {A} (body : M A) (caught : exn -> bool) (handler : exn -> M A) : M A :=
  fun w =>
    match body w with
    | (Ok a, w') => (Ok a, w')
    | (Raise e, w') => if caught e then handler e w' else (Raise e, w')
    end.

Declare Scope py_scope.
Delimit Scope py_scope with py.
Notation "'let*' x := m 'in' k" := (bind m (fun x => k))
  (at level 10, x name, m at level 100, k at level 200) : py_scope.
Notation "m ;;; k" := (bind m (fun _ => k))
  (at level 100, k at level 200, right associativity) : py_scope.
Local Open Scope py_scope.

Definition get_fs : M (gmap (list (list N)) node) := fun w => (Ok (fs w), w).

Definition put_fs (fs' : gmap (list (list N)) node) : M unit :=
  fun w => (Ok tt, {| fs := fs'; log := log w; sent := sent w |}).

(** The world with one more line in the log. *)
Definition logged (w : World) (l : level) (m : message) : World :=
  {| fs := fs w; log := log w ++ [(l, m)]; sent := sent w |}.

Definition logger (l : level) (m : message) : M unit :=
  fun w => (Ok tt, logged w l m).

(** [session.get(url, params=..., timeout=...)]: the request is recorded. *)
Definition session_get (env : Env) (rq : Request) : M Response :=
  fun w =>
    let w' := {| fs := fs w; log := log w; sent := sent w ++ [rq] |} in
    match http_get env rq with
    | GetRaises => (Raise RequestException, w')
    | GetReturns resp => (Ok resp, w')
    end.

Definition lift {A} (r : res A) : M A := fun w => (r, w).

(** [sys.exit(code)]. *)
Definition sys_exit {A} (code : Z) : M A := raise (SystemExit code).

(** ** Operations on files *)

(** The paths [mkdir(parents=True)] visits: the non-empty prefixes of the
    path, shortest first. *)
Definition mkdir_chain (path : Path) : list Path :=
  map (fun n => take n path) (seq 1 (length path)).

Definition mkdir_step (acc : res (gmap (list (list N)) node)) (q : Path)
  : res (gmap (list (list N)) node) :=
  match acc with
  | Raise e => Raise e
  | Ok fs =>
      match fs_lookup fs q with
      | None => Ok (<[q := Dir]> fs)
      | Some Dir => Ok fs
      | Some (File _) => Raise OSError
      end
  end.

(** [path.mkdir(parents=True, exist_ok=True)]: missing directories are
    created from the top; a regular file on the way is an [OSError]
    ([NotADirectoryError], or [FileExistsError] at the path itself) and
    nothing is created. *)
Definition mkdir_fs (fs : gmap (list (list N)) node) (path : Path)
  : res (gmap (list (list N)) node) :=
  foldl mkdir_step (Ok fs) (mkdir_chain path).

Definition mkdir_parents (path : Path) : M unit :=
  let* fs := get_fs in
  match mkdir_fs fs path with
  | Ok fs' => put_fs fs'
  | Raise e => raise e
  end.

(** [path.exists()]. *)
Definition exists_ (path : Path) : M bool :=
  let* fs := get_fs in ret (path_exists fs path).

(** [open(path, "w")] or [open(path, "wb")]: the directory of the file must
    exist, the path must not be a directory and the operating system must
    agree; then the file exists and is empty. *)
Definition open_for_writing (env : Env) (path : Path) : M unit :=
  let* fs := get_fs in
  if negb (is_dir fs (parent path)) then raise OSError
  else if is_dir fs path then raise OSError
  else match io_fault_at env path with
       | OpenFault => raise OSError
       | _ => put_fs (<[path := File []]> fs)
       end.

(** [f.write(data)] and the close of the file: all the bytes, or the first
    ones and an [OSError]. *)
Definition write_bytes (env : Env) (path : Path) (data : bytes) : M unit :=
  let* fs := get_fs in
  match io_fault_at env path with
  | WriteFault written =>
      put_fs (<[path := File (take written data)]> fs) ;;; raise OSError
  | _ => put_fs (<[path := File data]> fs)
  end.

Definition byte_of_N (n : N) : Byte.byte := default Byte.x00 (Byte.of_N n).

(** UTF-8 of one code point; a surrogate has none. *)
Definition utf8_encode_char (c : N) : option bytes :=
  if c <? 0x80 then Some [byte_of_N c]
  else if c <? 0x800 then
    Some [byte_of_N (N.lor 0xC0 (N.shiftr c 6));
          byte_of_N (N.lor 0x80 (N.land c 0x3F))]
  else if (0xD800 <=? c) && (c <=? 0xDFFF) then None
  else if c <? 0x10000 then
    Some [byte_of_N (N.lor 0xE0 (N.shiftr c 12));
          byte_of_N (N.lor 0x80 (N.land (N.shiftr c 6) 0x3F));
          byte_of_N (N.lor 0x80 (N.land c 0x3F))]
  else if c <? 0x110000 then
    Some [byte_of_N (N.lor 0xF0 (N.shiftr c 18));
          byte_of_N (N.lor 0x80 (N.land (N.shiftr c 12) 0x3F));
          byte_of_N (N.lor 0x80 (N.land (N.shiftr c 6) 0x3F));
          byte_of_N (N.lor 0x80 (N.land c 0x3F))]
  else None.

(** [s.encode("utf-8")]. *)
Fixpoint utf8_encode (s : pystr) : option bytes :=
  match s with
  | [] => Some []
  | c :: t =>
      match utf8_encode_char c, utf8_encode t with
      | Some b, Some bs => Some (b ++ bs)
      | _, _ => None
      end
  end.

(** [f.write(text)] on a file opened in text mode with the UTF-8 encoding:
    the text is encoded first, and a text that cannot be encoded is a
    [UnicodeEncodeError] with nothing written. *)
Definition write_text (env : Env) (path : Path) (text : pystr) : M unit :=
  match utf8_encode text with
  | None => raise UnicodeEncodeError
  | Some data => write_bytes env path data
  end.

(** [with open(path, "wb") as f: f.write(data)]. *)
Definition with_open_wb (env : Env) (path : Path) (data : bytes) : M unit :=
  open_for_writing env path ;;;
  write_bytes env path data.

(** [with open(path, "w", encoding="utf-8") as f: f.write(text)]. *)
Definition with_open_w (env : Env) (path : Path) (text : pystr) : M unit :=
  open_for_writing env path ;;;
  write_text env path text.

(** ** The helper [get_project_root] *)

Definition anchor_files : list pystr :=
  [py ".git"; py "pyproject.toml"; py "requirements.txt"].

(** The inner loop: [for anchor in anchor_files: if (path / anchor).exists()]. *)
Fixpoint any_anchor_exists (fs : gmap (list (list N)) node) (path : Path)
  (anchors : list pystr) : bool :=
  match anchors with
  | [] => false
  | anchor :: rest =>
      if path_exists fs (joinpath path anchor) then true
      else any_anchor_exists fs path rest
  end.

(** The outer loop: the first path with an anchor is returned. *)
Fixpoint search_upward (fs : gmap (list (list N)) node) (anchors : list pystr)
  (paths : list Path) : option Path :=
  match paths with
  | [] => None
  | path :: rest =>
      if any_anchor_exists fs path anchors then Some path
      else search_upward fs anchors rest
  end.

Definition get_project_root (anchors : list pystr) (fs : gmap (list (list N)) node)
  (current_path : Path) : Path :=
  match search_upward fs anchors (current_path :: parents current_path) with
  | Some path => path
  | None => parent current_path
  end.

(** ** The class [BingWallpaperCollector] *)

Record Collector := {
  market : pystr;
  project_root : Path;
  readme_path : Path;
  output_dir : Path
}.

(** [__init__]. *)
Definition __init__ (env : Env) (relative_output_dir : pystr) (market : pystr)
  : M Collector :=
  let* fs := get_fs in
  let project_root := get_project_root anchor_files fs (script_path env) in
  logger DEBUG (DetectedProjectRoot project_root) ;;;
  ret {| market := market;
         project_root := project_root;
         readme_path := joinpath project_root (py "README.md");
         output_dir := joinpath project_root relative_output_dir |}.

(** [data[key]] on a dictionary. *)
Definition getitem {V} (d : gmap (list N) V) (key : pystr) : res V :=
  match d !! key with
  | Some v => Ok v
  | None => Raise KeyError
  end.

(** [l[0]] on a list. *)
Definition getitem0 {V} (l : list V) : res V :=
  match l with
  | v :: _ => Ok v
  | [] => Raise IndexError
  end.

Definition fetch_caught (e : exn) : bool :=
  match e with
  | RequestException | KeyError | IndexError => true
  | _ => false
  end.

Definition metadata_request (market : pystr) : Request :=
  {| req_url := BING_API_URL;
     req_params := [(py "format", py "js"); (py "idx", py "0");
                    (py "n", py "1"); (py "mkt", market)];
     req_timeout := 10 |}.

(** [_fetch_metadata]. *)
Definition _fetch_metadata (self : Collector) (env : Env) : M (option WallpaperData) :=
  try_except
    (logger DEBUG FetchingMetadata ;;;
     let* resp := session_get env (metadata_request (market self)) in
     lift (raise_for_status resp) ;;;
     let data := json resp in
     let* images := lift (getitem data (py "images")) in
     let* image_data := lift (getitem0 images) in
     let* url_suffix := lift (getitem image_data (py "url")) in
     let* copyright_text := lift (getitem image_data (py "copyright")) in
     let* date_str := lift (getitem image_data (py "enddate")) in
     let record := build_record url_suffix copyright_text date_str in
     logger INFO (MetadataFetched (filename record)) ;;;
     ret (Some record))
    fetch_caught
    (fun e => logger ERROR (ErrorFetchingMetadata e) ;;; ret None).

Definition is_RequestException (e : exn) : bool :=
  match e with
  | RequestException => true
  | _ => false
  end.

Definition image_request (url : pystr) : Request :=
  {| req_url := url; req_params := []; req_timeout := 30 |}.

(** [_download_image]. *)
Definition _download_image (self : Collector) (env : Env) (url : pystr)
  (save_path : Path) : M unit :=
  try_except
    (logger DEBUG (DownloadingImage url) ;;;
     let* resp := session_get env (image_request url) in
     lift (raise_for_status resp) ;;;
     with_open_wb env save_path (content resp) ;;;
     logger SUCCESS (ImageSaved save_path))
    is_RequestException
    (fun e => logger ERROR (FailedToDownload e) ;;; raise e).

(** The text of the status document. *)
Definition readme_content (market : pystr) (data : WallpaperData) : pystr :=
  py "# " ++ [0x1F3DE; 0xFE0F] ++ py " Bing Daily Wallpaper" ++ [10] ++
  [10] ++
  py "> " ++ [0x1F916] ++ py " Auto-collected by GitHub Actions." ++ [10] ++
  py "> Market: " ++ market ++ [10] ++
  [10] ++
  py "## " ++ [0x1F4C5] ++ py " Today (" ++ date_str data ++ py ")" ++ [10] ++
  [10] ++
  py "![" ++ title data ++ py "](" ++ image_url data ++ py ")" ++ [10] ++
  [10] ++
  py "> **" ++ copyright data ++ py "**" ++ [10] ++
  [10] ++
  py "## " ++ [0x1F5C4; 0xFE0F] ++ py " Archives" ++ [10] ++
  py "- [View Archives](archives/)" ++ [10].

Definition is_IOError (e : exn) : bool :=
  match e with
  | OSError => true
  | _ => false
  end.

(** [_update_readme]. *)
Definition _update_readme (self : Collector) (env : Env) (data : WallpaperData) : M unit :=
  let content := readme_content (market self) data in
  try_except
    (with_open_w env (readme_path self) content ;;;
     logger INFO ReadmeUpdated)
    is_IOError
    (fun e => logger ERROR (FailedToWriteReadme e)).

(** The two paths [run] computes. *)
Definition year_dir_of (self : Collector) (env : Env) : Path :=
  joinpath (output_dir self) (str_of_N (today_year env)).

Definition save_path_of (self : Collector) (env : Env) (metadata : WallpaperData) : Path :=
  joinpath (year_dir_of self env) (filename metadata).

(** [run]. *)
Definition run (self : Collector) (env : Env) : M unit :=
  logger INFO (StartingCollector (market self)) ;;;
  try_except
    (let* metadata := _fetch_metadata self env in
     match metadata with
     | None => logger WARNING NoMetadataFetched
     | Some metadata =>
         let year_dir := year_dir_of self env in
         mkdir_parents year_dir ;;;
         let save_path := save_path_of self env metadata in
         let* present := exists_ save_path in
         if present then logger INFO (FileAlreadyExists save_path)
         else
           _download_image self env (image_url metadata) save_path ;;;
           _update_readme self env metadata
     end)
    is_Exception
    (fun e => logger ERROR (CriticalError e) ;;; sys_exit 1).

(** [parse_args]: the two options, each with its default. *)
Definition parse_args (output market : option pystr) : pystr * pystr :=
  (default (py "archives") output, default (py "zh-CN") market).

(** The script: the collector is built from the two command-line values and
    run. *)
Definition main (env : Env) (output market : option pystr) : M unit :=
  let args := parse_args output market in
  let* collector := __init__ env (fst args) (snd args) in
  run collector env.

(** The exit status of the process for the way the script ends. *)
Definition exit_status (r : res unit) : Z :=
  match r with
  | Ok _ => 0%Z
  | Raise (SystemExit code) => code
  | Raise _ => 1%Z
  end.

(** ** The failures the specification names *)

(** The metadata fetch fails: a network error, an HTTP error status, a body
    without the [images] key, an empty [images] array, or a first entry that
    lacks one of the three fields. *)
Inductive metadata_failure (env : Env) (self : Collector) : Prop :=
| metadata_network_error :
    http_get env (metadata_request (market self)) = GetRaises ->
    metadata_failure env self
| metadata_http_error (resp : Response) :
    http_get env (metadata_request (market self)) = GetReturns resp ->
    raise_for_status resp = Raise RequestException ->
    metadata_failure env self
| metadata_no_images (resp : Response) :
    http_get env (metadata_request (market self)) = GetReturns resp ->
    raise_for_status resp = Ok tt ->
    json resp !! py "images" = None ->
    metadata_failure env self
| metadata_empty_images (resp : Response) :
    http_get env (metadata_request (market self)) = GetReturns resp ->
    raise_for_status resp = Ok tt ->
    json resp !! py "images" = Some [] ->
    metadata_failure env self
| metadata_missing_field (resp : Response) (image_data : gmap (list N) (list N))
    (rest : list (gmap (list N) (list N))) (key : pystr) :
    http_get env (metadata_request (market self)) = GetReturns resp ->
    raise_for_status resp = Ok tt ->
    json resp !! py "images" = Some (image_data :: rest) ->
    In key [py "url"; py "copyright"; py "enddate"] ->
    image_data !! key = None ->
    metadata_failure env self.

(** The image download fails: a network error or an HTTP error status. *)
Inductive download_failure (env : Env) (url : pystr) : Prop :=
| download_network_error :
    http_get env (image_request url) = GetRaises ->
    download_failure env url
| download_http_error (resp : Response) :
    http_get env (image_request url) = GetReturns resp ->
    raise_for_status resp = Raise RequestException ->
    download_failure env url.

(** A status in the range 200 to 299. *)
Definition is_2xx (status : N) : bool := (200 <=? status) && (status <? 300).

(** A directory contains one of the three markers: an entry named [.git],
    [pyproject.toml] or [requirements.txt]. *)
Definition has_marker (fs : gmap (list (list N)) node) (path : Path) : bool :=
  path_exists fs (path ++ [py ".git"])
  || path_exists fs (path ++ [py "pyproject.toml"])
  || path_exists fs (path ++ [py "requirements.txt"]).

(** The status document in bytes, as the template in [_update_readme]
    spells it, around the UTF-8 bytes of the five values it embeds.  Used
    only to state what [readme_content] renders. *)
Definition template_bytes (market date title url copyright : bytes) : bytes :=
  list_byte_of_string "# 🏞️ Bing Daily Wallpaper

> 🤖 Auto-collected by GitHub Actions.
> Market: " ++ market ++ list_byte_of_string "

## 📅 Today (" ++ date ++ list_byte_of_string ")

![" ++ title ++ list_byte_of_string "](" ++ url ++ list_byte_of_string ")

> **" ++ copyright ++ list_byte_of_string "**

## 🗄️ Archives
- [View Archives](archives/)
".

(** The bytes [b] are the template around the market code and the date,
    title, image URL and copyright of the record, each in UTF-8. *)
Definition rendered_from (market : pystr) (data : WallpaperData) (b : bytes) : Prop :=
  exists bm bd bt bu bc : bytes,
    utf8_encode market = Some bm /\
    utf8_encode (date_str data) = Some bd /\
    utf8_encode (title data) = Some bt /\
    utf8_encode (image_url data) = Some bu /\
    utf8_encode (copyright data) = Some bc /\
    b = template_bytes bm bd bt bu bc.

(** How a step may change the file system: nothing disappears, a directory
    stays a directory, and the regular files outside [touched] keep their
    content. *)
Definition fs_frame (touched : list Path) (fs fs' : gmap (list (list N)) node) : Prop :=
  forall q : Path,
    (path_exists fs q = true -> path_exists fs' q = true) /\
    (is_dir fs q = true -> is_dir fs' q = true) /\
    (q ∉ touched -> read_file fs' q = read_file fs q).

(** ** Sample inputs

    Concrete responses, environments and worlds, on which the statements
    below are evaluated. *)

Module Sample.

Definition entry (url_suffix copyright_text enddate : pystr) : gmap (list N) (list N) :=
  <[py "url" := url_suffix]>
    (<[py "copyright" := copyright_text]> (<[py "enddate" := enddate]> ∅)).

Definition metadata_response (status : N) (entries : list (gmap (list N) (list N)))
  : Response :=
  {| status_code := status; content := []; json := <[py "images" := entries]> ∅ |}.

Definition image_response (status : N) : Response :=
  {| status_code := status; content := [Byte.xff; Byte.xd8; Byte.xff]; json := ∅ |}.

(** The network answers the metadata endpoint with [meta] and every other
    address with [image]. *)
Definition env_of (meta image : http_outcome) (fault : Path -> io_fault) : Env :=
  {| script_path := [py "repo"; py "src"; py "main.py"];
     today_year := 2024;
     http_get := fun rq =>
       if bool_decide (req_url rq = BING_API_URL) then meta else image;
     io_fault_at := fault |}.

Definition no_fault (path : Path) : io_fault := NoFault.

(** The caption of the example of the specification, with its copyright
    sign. *)
Definition mountain_view : pystr :=
  py "Mountain View (" ++ [0xA9] ++ py " Example Corp)".

Definition mountain_entry : gmap (list N) (list N) :=
  entry (py "/th?id=ABC123") mountain_view (py "20240115").

Definition env_ok : Env :=
  env_of (GetReturns (metadata_response 200 [mountain_entry]))
         (GetReturns (image_response 200)) no_fault.

(** A caption with a space before its question mark, as French typography
    writes it. *)
Definition env_question : Env :=
  env_of (GetReturns (metadata_response 200
            [entry (py "/th?id=ABC123") (py "Where ? (Example Corp)") (py "20240115")]))
         (GetReturns (image_response 200)) no_fault.

(** A checkout of the repository: [/repo/.git], [/repo/README.md] and
    [/repo/src/main.py]. *)
Definition fs_repo : gmap (list (list N)) node :=
  <[[py "repo"; py "src"; py "main.py"] := File []]>
    (<[[py "repo"; py "src"] := Dir]>
    (<[[py "repo"; py "README.md"] := File [Byte.x6f; Byte.x6c; Byte.x64]]>
    (<[[py "repo"; py ".git"] := Dir]>
    (<[[py "repo"] := Dir]> ∅)))).

Definition world_repo : World := {| fs := fs_repo; log := []; sent := [] |}.

(** The same checkout without a status document. *)
Definition fs_no_readme : gmap (list (list N)) node :=
  <[[py "repo"; py "src"; py "main.py"] := File []]>
    (<[[py "repo"; py "src"] := Dir]>
    (<[[py "repo"; py ".git"] := Dir]>
    (<[[py "repo"] := Dir]> ∅))).

Definition world_no_readme : World := {| fs := fs_no_readme; log := []; sent := [] |}.

(** A body without the [images] key. *)
Definition empty_body_response : Response :=
  {| status_code := 200; content := []; json := ∅ |}.

Definition env_no_images : Env :=
  env_of (GetReturns empty_body_response) (GetReturns (image_response 200)) no_fault.

(** The image server answers 500, or 304. *)
Definition env_500 : Env :=
  env_of (GetReturns (metadata_response 200 [mountain_entry]))
         (GetReturns (image_response 500)) no_fault.

(** The answer 304 Not Modified: it carries no body. *)
Definition not_modified_response : Response :=
  {| status_code := 304; content := []; json := ∅ |}.

Definition env_304 : Env :=
  env_of (GetReturns (metadata_response 200 [mountain_entry]))
         (GetReturns not_modified_response) no_fault.

(** The operating system refuses to open [/repo/README.md] for writing. *)
Definition readme_locked (path : Path) : io_fault :=
  if bool_decide (path = [py "repo"; py "README.md"]) then OpenFault else NoFault.

Definition env_readme_locked : Env :=
  env_of (GetReturns (metadata_response 200 [mountain_entry]))
         (GetReturns (image_response 200)) readme_locked.

Definition mountain_record : WallpaperData :=
  build_record (py "/th?id=ABC123") mountain_view (py "20240115").

Definition second_record : WallpaperData :=
  build_record (py "/th?id=XYZ789") (py "Night Sky (Example Corp)") (py "20240116").

(** The checkout after the image of the day has been collected. *)
Definition mountain_path : Path :=
  [py "repo"; py "archives"; py "2024"; py "2024-01-15_Mountain View.jpg"].

Definition fs_collected : gmap (list (list N)) node :=
  <[mountain_path := File [Byte.x01; Byte.x02]]>
    (<[[py "repo"; py "archives"; py "2024"] := Dir]>
    (<[[py "repo"; py "archives"] := Dir]> fs_repo)).

Definition world_collected : World := {| fs := fs_collected; log := []; sent := [] |}.

(** The write of the image stops after two bytes. *)
Definition partial_write (path : Path) : io_fault :=
  if bool_decide (path = mountain_path) then WriteFault 2 else NoFault.

Definition env_partial : Env :=
  env_of (GetReturns (metadata_response 200 [mountain_entry]))
         (GetReturns (image_response 200)) partial_write.

(** A record whose caption holds a lone surrogate, after the parenthesis. *)
Definition surrogate_record : WallpaperData :=
  build_record (py "/th?id=DUNES") (py "Dunes (" ++ [0xD800] ++ py ")") (py "20240117").

Definition collector (market : pystr) : Collector :=
  {| market := market;
     project_root := [py "repo"];
     readme_path := [py "repo"; py "README.md"];
     output_dir := [py "repo"; py "archives"] |}.

End Sample.

(** ** Unfolding the monad *)

Ltac unfold_m :=
  unfold sys_exit, exists_ in *;
  unfold try_except, bind, ret, raise, lift, logger, logged, session_get,
    get_fs, put_fs in *;
  cbn [fs log sent fst snd] in *.

Ltac norm_log := rewrite <- ?app_assoc; cbn [app].

(** * Properties *)

(** ** Stripping and deleting characters *)

Section Strings.

Variable cls : list N.

Lemma lstrip_idem (s : pystr) : lstrip (lstrip s) = lstrip s.
Proof.
  induction s as [|c t IH]; simpl; [done|].
  destruct (isspace c) eqn:E; [done|].
  simpl. by rewrite E.
Qed.

Lemma rstrip_cons (c : N) (t : pystr) :
  rstrip (c :: t) =
  match rstrip t with
  | [] => if isspace c then [] else [c]
  | t' => c :: t'
  end.
Proof. reflexivity. Qed.

Lemma rstrip_idem (s : pystr) : rstrip (rstrip s) = rstrip s.
Proof.
  induction s as [|c t IH]; [done|].
  rewrite rstrip_cons.
  destruct (rstrip t) as [|h r] eqn:Et.
  - destruct (isspace c) eqn:E; [done|]. simpl. by rewrite E.
  - rewrite rstrip_cons, IH. done.
Qed.

(** The two one-sided strips commute. *)
Lemma rstrip_lstrip (s : pystr) : rstrip (lstrip s) = lstrip (rstrip s).
Proof.
  induction s as [|c t IH]; [done|].
  rewrite rstrip_cons. simpl lstrip at 1.
  destruct (isspace c) eqn:E.
  - rewrite IH. destruct (rstrip t) as [|h r]; [done|].
    simpl. by rewrite E.
  - rewrite rstrip_cons.
    destruct (rstrip t) as [|h r]; simpl; by rewrite E.
Qed.

Lemma strip_idem (s : pystr) : strip (strip s) = strip s.
Proof.
  unfold strip.
  rewrite (rstrip_lstrip (rstrip (lstrip s))), rstrip_idem.
  by rewrite !(rstrip_lstrip s), lstrip_idem.
Qed.

Lemma lstrip_head (s : pystr) (c : N) :
  head (lstrip s) = Some c -> isspace c = false.
Proof.
  induction s as [|a t IH]; simpl; [done|].
  destruct (isspace a) eqn:E; [done|].
  simpl. intros [= <-]. done.
Qed.

Lemma rstrip_last (s : pystr) (c : N) :
  last (rstrip s) = Some c -> isspace c = false.
Proof.
  induction s as [|a t IH]; [done|].
  rewrite rstrip_cons.
  destruct (rstrip t) as [|h r] eqn:Et.
  - destruct (isspace a) eqn:E; [done|]. simpl. intros [= <-]. done.
  - intros H. apply IH. by rewrite last_cons_cons in H.
Qed.

Lemma strip_head (s : pystr) (c : N) :
  head (strip s) = Some c -> isspace c = false.
Proof. unfold strip. rewrite rstrip_lstrip. apply lstrip_head. Qed.

Lemma strip_last (s : pystr) (c : N) :
  last (strip s) = Some c -> isspace c = false.
Proof. apply rstrip_last. Qed.

(** Stripping before the deletion changes nothing once the result is
    stripped. *)
Lemma lstrip_re_sub_lstrip (s : pystr) :
  lstrip (re_sub_class cls (lstrip s)) = lstrip (re_sub_class cls s).
Proof.
  induction s as [|c t IH]; [done|].
  simpl lstrip at 2.
  destruct (isspace c) eqn:E; [|done].
  rewrite IH. simpl.
  destruct (in_class cls c); [done|].
  simpl. by rewrite E.
Qed.

Lemma re_sub_class_cons (c : N) (t : pystr) :
  re_sub_class cls (c :: t) =
  if in_class cls c then re_sub_class cls t else c :: re_sub_class cls t.
Proof. reflexivity. Qed.

Lemma rstrip_re_sub_rstrip (s : pystr) :
  rstrip (re_sub_class cls (rstrip s)) = rstrip (re_sub_class cls s).
Proof.
  induction s as [|c t IH]; [done|].
  rewrite rstrip_cons, (re_sub_class_cons c t).
  destruct (rstrip t) as [|h r] eqn:Et.
  - change (rstrip (re_sub_class cls [])) with (@nil N) in IH.
    destruct (isspace c) eqn:E.
    + destruct (in_class cls c); [done|].
      by rewrite rstrip_cons, <- IH, E.
    + rewrite (re_sub_class_cons c []).
      destruct (in_class cls c); [done|].
      by rewrite !rstrip_cons, <- IH, E.
  - rewrite (re_sub_class_cons c (h :: r)).
    destruct (in_class cls c); [done|].
    by rewrite !rstrip_cons, IH.
Qed.

Lemma strip_re_sub_strip (s : pystr) :
  strip (re_sub_class cls (strip s)) = strip (re_sub_class cls s).
Proof.
  unfold strip.
  rewrite rstrip_lstrip, rstrip_re_sub_rstrip, <- rstrip_lstrip.
  by rewrite lstrip_re_sub_lstrip.
Qed.

Lemma re_sub_class_clean (s : pystr) :
  Forall (fun c => in_class cls c = false) (re_sub_class cls s).
Proof.
  induction s as [|c t IH]; simpl; [constructor|].
  destruct (in_class cls c) eqn:E; [done|]. by constructor.
Qed.

Lemma re_sub_class_id (s : pystr) :
  Forall (fun c => in_class cls c = false) s -> re_sub_class cls s = s.
Proof.
  induction 1 as [|c t Hc Ht IH]; simpl; [done|].
  by rewrite Hc, IH.
Qed.

Lemma lstrip_Forall (P : N -> Prop) (s : pystr) : Forall P s -> Forall P (lstrip s).
Proof.
  induction 1 as [|c t Hc Ht IH]; simpl; [constructor|].
  destruct (isspace c); [done|]. by constructor.
Qed.

Lemma rstrip_Forall (P : N -> Prop) (s : pystr) : Forall P s -> Forall P (rstrip s).
Proof.
  induction 1 as [|c t Hc Ht IH]; [constructor|].
  rewrite rstrip_cons.
  destruct (rstrip t) as [|h r].
  - destruct (isspace c); by repeat constructor.
  - by constructor.
Qed.

Lemma strip_Forall (P : N -> Prop) (s : pystr) : Forall P s -> Forall P (strip s).
Proof. intros H. by apply rstrip_Forall, lstrip_Forall. Qed.

End Strings.

(** ** The sanitiser [_clean_filename] *)

Lemma forbidden_not_digit (c : N) :
  isdigit c = true -> in_class forbidden_chars c = false.
Proof.
  unfold isdigit, in_class, forbidden_chars. simpl. intros H.
  apply andb_true_iff in H as [H1 H2].
  apply N.leb_le in H1, H2.
  repeat (apply orb_false_intro; [apply N.eqb_neq; lia|]). done.
Qed.

Lemma clean_filename_clean (s : pystr) :
  Forall (fun c => in_class forbidden_chars c = false) (_clean_filename s).
Proof. apply strip_Forall, re_sub_class_clean. Qed.

Lemma head_isspace_strip (s : pystr) : head_isspace (strip s) = false.
Proof.
  unfold head_isspace. destruct (head (strip s)) as [c|] eqn:E; [|done].
  by apply strip_head in E.
Qed.

Lemma last_isspace_strip (s : pystr) : last_isspace (strip s) = false.
Proof.
  unfold last_isspace. destruct (last (strip s)) as [c|] eqn:E; [|done].
  by apply strip_last in E.
Qed.

(** C10: [_clean_filename] is idempotent: cleaning a cleaned string changes
    nothing, so a cleaned string holds no forbidden character and neither
    starts nor ends with whitespace. *)
Theorem clean_filename_idempotent (s : pystr) :
  _clean_filename (_clean_filename s) = _clean_filename s /\
  Forall (fun c => in_class forbidden_chars c = false) (_clean_filename s) /\
  head_isspace (_clean_filename s) = false /\
  last_isspace (_clean_filename s) = false.
Proof.
  split; [|split; [apply clean_filename_clean|split]].
  - unfold _clean_filename.
    rewrite strip_re_sub_strip.
    by rewrite (re_sub_class_id _ _ (re_sub_class_clean forbidden_chars s)).
  - apply head_isspace_strip.
  - apply last_isspace_strip.
Qed.

(** ** The metadata fetch *)

(** A response with the three fields in its first entry gives the record
    [build_record] makes of them; the file system is not touched. *)
Lemma fetch_metadata_ok (self : Collector) (env : Env) (w : World)
  (resp : Response) (image_data : gmap (list N) (list N))
  (rest : list (gmap (list N) (list N))) (u c e : pystr) :
  http_get env (metadata_request (market self)) = GetReturns resp ->
  raise_for_status resp = Ok tt ->
  json resp !! py "images" = Some (image_data :: rest) ->
  image_data !! py "url" = Some u ->
  image_data !! py "copyright" = Some c ->
  image_data !! py "enddate" = Some e ->
  _fetch_metadata self env w =
  (Ok (Some (build_record u c e)),
   {| fs := fs w;
      log := (log w ++ [(DEBUG, FetchingMetadata)])
             ++ [(INFO, MetadataFetched (filename (build_record u c e)))];
      sent := sent w ++ [metadata_request (market self)] |}).
Proof.
  intros Hget Hst Himg Hu Hc He.
  unfold _fetch_metadata, try_except, bind, logger, session_get, lift, getitem, ret.
  cbv beta iota. rewrite Hget. cbv beta iota. rewrite Hst, Himg.
  unfold getitem0. rewrite Hu, Hc, He. reflexivity.
Qed.

Lemma date_of_eight_digits (e : pystr) :
  length e = 8%nat -> forallb isdigit e = true ->
  is_date_pattern (insert_hyphens e) = true /\
  Forall (fun x => in_class forbidden_chars x = false) (insert_hyphens e).
Proof.
  intros Hlen Hdig.
  do 8 (destruct e as [|? e]; [discriminate|]).
  destruct e; [|discriminate].
  split.
  - cbn in Hdig |- *. repeat (apply andb_true_iff in Hdig as [? Hdig]).
    repeat match goal with H : isdigit _ = true |- _ => rewrite H; clear H end.
    reflexivity.
  - cbn in Hdig. repeat (apply andb_true_iff in Hdig as [? Hdig]).
    unfold insert_hyphens. cbn.
    repeat (constructor; [first [by apply forbidden_not_digit | reflexivity]|]).
    constructor.
Qed.

(** C1 (as the code has it): for a response whose caption is [c] and whose
    end date is an 8-digit string [e], the file name of the fetched record is
    the date with hyphens after characters 4 and 6, an underscore, the part of
    [c] before the first parenthesis, trimmed, with the nine characters
    removed and trimmed again, and [.jpg].  Trimming first is immaterial:
    the prefix is the caption's part with the characters removed, then
    trimmed.  The name has the shape YYYY-MM-DD_prefix.jpg and holds none of
    the nine characters. *)
Theorem fetch_metadata_filename (self : Collector) (env : Env) (w : World)
  (resp : Response) (image_data : gmap (list N) (list N))
  (rest : list (gmap (list N) (list N))) (u c e : pystr) :
  http_get env (metadata_request (market self)) = GetReturns resp ->
  raise_for_status resp = Ok tt ->
  json resp !! py "images" = Some (image_data :: rest) ->
  image_data !! py "url" = Some u ->
  image_data !! py "copyright" = Some c ->
  image_data !! py "enddate" = Some e ->
  length e = 8%nat ->
  forallb isdigit e = true ->
  exists (d : WallpaperData) (w' : World),
    _fetch_metadata self env w = (Ok (Some d), w') /\
    filename d =
      insert_hyphens e ++ py "_"
      ++ strip (re_sub_class forbidden_chars (strip (split_first 40 c)))
      ++ py ".jpg" /\
    strip (re_sub_class forbidden_chars (strip (split_first 40 c)))
      = strip (re_sub_class forbidden_chars (split_first 40 c)) /\
    is_date_pattern (insert_hyphens e) = true /\
    Forall (fun x => in_class forbidden_chars x = false) (filename d).
Proof.
  intros Hget Hst Himg Hu Hc He Hlen Hdig.
  destruct (date_of_eight_digits e Hlen Hdig) as [Hpat Hclean].
  eexists _, _. split; [by eapply fetch_metadata_ok|].
  assert (Hname : filename (build_record u c e) =
    insert_hyphens e ++ py "_"
    ++ strip (re_sub_class forbidden_chars (strip (split_first 40 c)))
    ++ py ".jpg").
  { reflexivity. }
  split; [exact Hname|].
  split; [apply strip_re_sub_strip|].
  split; [exact Hpat|].
  rewrite Hname.
  apply Forall_app; split; [exact Hclean|].
  apply Forall_app; split.
  { apply List.Forall_forall. intros x Hx. vm_compute in Hx.
    destruct Hx as [<-|[]]. reflexivity. }
  apply Forall_app; split; [apply strip_Forall, re_sub_class_clean|].
  apply List.Forall_forall. intros x Hx. vm_compute in Hx.
    repeat (destruct Hx as [<-|Hx]; [reflexivity|]). destruct Hx.
Qed.

Lemma fetch_metadata_filename_witness :
  exists (d : WallpaperData) (w' : World),
    _fetch_metadata (Sample.collector (py "en-US")) Sample.env_ok Sample.world_repo
      = (Ok (Some d), w') /\
    filename d =
      insert_hyphens (py "20240115") ++ py "_"
      ++ strip (re_sub_class forbidden_chars (strip (split_first 40 Sample.mountain_view)))
      ++ py ".jpg" /\
    strip (re_sub_class forbidden_chars (strip (split_first 40 Sample.mountain_view)))
      = strip (re_sub_class forbidden_chars (split_first 40 Sample.mountain_view)) /\
    is_date_pattern (insert_hyphens (py "20240115")) = true /\
    Forall (fun x => in_class forbidden_chars x = false) (filename d).
Proof.
  apply (fetch_metadata_filename (Sample.collector (py "en-US")) Sample.env_ok
           Sample.world_repo (Sample.metadata_response 200 [Sample.mountain_entry])
           Sample.mountain_entry [] (py "/th?id=ABC123") Sample.mountain_view
           (py "20240115"));
    vm_compute; reflexivity.
Defined.

(** C1 (as the specification words it) fails: with the caption
    [Where ? (Example Corp)] the part before the parenthesis, trimmed, is
    [Where ?]; removing the question mark leaves [Where] followed by a space,
    which the specification's wording keeps and the code strips. *)
Lemma spec_filename_counterexample :
  let c := py "Where ? (Example Corp)" in
  let e := py "20240115" in
  length e = 8%nat /\
  forallb isdigit e = true /\
  fst (_fetch_metadata (Sample.collector (py "fr-FR")) Sample.env_question Sample.world_repo)
    = Ok (Some (build_record (py "/th?id=ABC123") c e)) /\
  filename (build_record (py "/th?id=ABC123") c e) = py "2024-01-15_Where.jpg" /\
  spec_filename c e = py "2024-01-15_Where .jpg" /\
  filename (build_record (py "/th?id=ABC123") c e) <> spec_filename c e.
Proof.
  repeat split; try (vm_compute; reflexivity).
  intros H. vm_compute in H. discriminate H.
Qed.

(** C2: for the response with end date 20240115, path [/th?id=ABC123] and
    caption [Mountain View (c Example Corp)] (with the copyright sign), fetched
    for the market en-US, the record has the date 2024-01-15, the file name
    [2024-01-15_Mountain View.jpg] and the image URL
    [https://www.bing.com/th?id=ABC123]. *)
Theorem fetch_metadata_mountain_view (self : Collector) (env : Env) (w : World)
  (resp : Response) (image_data : gmap (list N) (list N))
  (rest : list (gmap (list N) (list N))) :
  market self = py "en-US" ->
  http_get env (metadata_request (py "en-US")) = GetReturns resp ->
  raise_for_status resp = Ok tt ->
  json resp !! py "images" = Some (image_data :: rest) ->
  image_data !! py "enddate" = Some (py "20240115") ->
  image_data !! py "url" = Some (py "/th?id=ABC123") ->
  image_data !! py "copyright" = Some (py "Mountain View (" ++ [0xA9] ++ py " Example Corp)") ->
  exists (d : WallpaperData) (w' : World),
    _fetch_metadata self env w = (Ok (Some d), w') /\
    date_str d = py "2024-01-15" /\
    filename d = py "2024-01-15_Mountain View.jpg" /\
    image_url d = py "https://www.bing.com/th?id=ABC123".
Proof.
  intros Hm Hget Hst Himg He Hu Hc. rewrite <- Hm in Hget.
  eexists _, _. split; [by eapply fetch_metadata_ok|].
  repeat split; vm_compute; reflexivity.
Qed.

Lemma fetch_metadata_mountain_view_witness :
  exists (d : WallpaperData) (w' : World),
    _fetch_metadata (Sample.collector (py "en-US")) Sample.env_ok Sample.world_repo
      = (Ok (Some d), w') /\
    date_str d = py "2024-01-15" /\
    filename d = py "2024-01-15_Mountain View.jpg" /\
    image_url d = py "https://www.bing.com/th?id=ABC123".
Proof.
  apply (fetch_metadata_mountain_view (Sample.collector (py "en-US")) Sample.env_ok
           Sample.world_repo (Sample.metadata_response 200 [Sample.mountain_entry])
           Sample.mountain_entry []);
    vm_compute; reflexivity.
Defined.

Lemma fetch_metadata_none (self : Collector) (env : Env) :
  metadata_failure env self ->
  exists e : exn,
    forall w : World,
      _fetch_metadata self env w =
      (Ok None,
       {| fs := fs w;
          log := log w ++ [(DEBUG, FetchingMetadata); (ERROR, ErrorFetchingMetadata e)];
          sent := sent w ++ [metadata_request (market self)] |}).
Proof.
  intros [Hget|resp Hget Hst|resp Hget Hst Himg|resp Hget Hst Himg
         |resp image_data rest key Hget Hst Himg Hkey Hnone].
  - exists RequestException. intros w.
    unfold _fetch_metadata. unfold_m. rewrite Hget. cbn. by norm_log.
  - exists RequestException. intros w.
    unfold _fetch_metadata. unfold_m. rewrite Hget. cbv beta iota. rewrite Hst. cbn. by norm_log.
  - exists KeyError. intros w.
    unfold _fetch_metadata, getitem. unfold_m. rewrite Hget. cbv beta iota. rewrite Hst, Himg.
    cbn. by norm_log.
  - exists IndexError. intros w.
    unfold _fetch_metadata, getitem. unfold_m. rewrite Hget. cbv beta iota. rewrite Hst, Himg.
    cbn. by norm_log.
  - exists KeyError. intros w.
    unfold _fetch_metadata, getitem. unfold_m. rewrite Hget. cbv beta iota. rewrite Hst, Himg.
    cbv beta iota delta [getitem0].
    destruct Hkey as [<-|[<-|[<-|[]]]].
    + rewrite Hnone. cbn. by norm_log.
    + destruct (image_data !! py "url"); rewrite ?Hnone; cbn; by norm_log.
    + destruct (image_data !! py "url"); [|cbn; by norm_log].
      destruct (image_data !! py "copyright"); rewrite ?Hnone; cbn; by norm_log.
Qed.

Lemma fetch_metadata_frame (self : Collector) (env : Env) (w : World) :
  fs (snd (_fetch_metadata self env w)) = fs w /\
  sent (snd (_fetch_metadata self env w)) = sent w ++ [metadata_request (market self)].
Proof.
  unfold _fetch_metadata, getitem, getitem0, raise_for_status. unfold_m.
  repeat case_match; simplify_eq; cbn; done.
Qed.

(** C4: when the metadata fetch fails (network error, HTTP error status,
    missing [images] key, empty [images] array, missing field), the fetch
    returns [None], [run] returns normally (exit status 0) and the file
    system is as before: nothing is created or written. *)
Theorem run_without_metadata (self : Collector) (env : Env) (w : World) :
  metadata_failure env self ->
  exists e : exn,
    _fetch_metadata self env w =
      (Ok None,
       {| fs := fs w;
          log := log w ++ [(DEBUG, FetchingMetadata); (ERROR, ErrorFetchingMetadata e)];
          sent := sent w ++ [metadata_request (market self)] |}) /\
    run self env w =
      (Ok tt,
       {| fs := fs w;
          log := log w ++ [(INFO, StartingCollector (market self));
                           (DEBUG, FetchingMetadata);
                           (ERROR, ErrorFetchingMetadata e);
                           (WARNING, NoMetadataFetched)];
          sent := sent w ++ [metadata_request (market self)] |}) /\
    exit_status (fst (run self env w)) = 0%Z /\
    fs (snd (run self env w)) = fs w.
Proof.
  intros Hfail. destruct (fetch_metadata_none self env Hfail) as [e He].
  exists e. split; [apply He|].
  assert (Hrun : run self env w =
      (Ok tt,
       {| fs := fs w;
          log := log w ++ [(INFO, StartingCollector (market self));
                           (DEBUG, FetchingMetadata);
                           (ERROR, ErrorFetchingMetadata e);
                           (WARNING, NoMetadataFetched)];
          sent := sent w ++ [metadata_request (market self)] |})).
  { unfold run. unfold_m. rewrite He. cbn. by norm_log. }
  rewrite Hrun. done.
Qed.

(** ** Directories *)

Lemma fs_lookup_insert_ne (fs : gmap (list (list N)) node) (a q : Path) (n : node) :
  a <> q -> fs_lookup (<[a := n]> fs) q = fs_lookup fs q.
Proof. intros Hne. destruct q; [done|]. by apply lookup_insert_ne. Qed.

Lemma fs_lookup_insert_eq (fs : gmap (list (list N)) node) (a : Path) (n : node) :
  a <> [] -> fs_lookup (<[a := n]> fs) a = Some n.
Proof. intros Hne. destruct a; [done|]. by apply lookup_insert_eq. Qed.

Lemma mkdir_step_raise (chain : list Path) (e : exn) :
  foldl mkdir_step (Raise e) chain = Raise e.
Proof. induction chain as [|a chain IH]; [done|]. exact IH. Qed.

(** [mkdir] changes a path only from absent to directory. *)
Lemma mkdir_chain_lookup (chain : list Path) (fs fs' : gmap (list (list N)) node) :
  foldl mkdir_step (Ok fs) chain = Ok fs' ->
  forall q : Path,
    fs_lookup fs' q = fs_lookup fs q \/
    (fs_lookup fs q = None /\ fs_lookup fs' q = Some Dir).
Proof.
  revert fs. induction chain as [|a chain IH]; intros fs Hfold q.
  - left. by injection Hfold as <-.
  - cbn [foldl] in Hfold. unfold mkdir_step at 2 in Hfold.
    destruct (fs_lookup fs a) as [[data|]|] eqn:Ea.
    + by rewrite mkdir_step_raise in Hfold.
    + by apply IH.
    + assert (Hne : a <> []) by (intros ->; discriminate Ea).
      destruct (IH _ Hfold q) as [Hq|[Hq1 Hq2]].
      * destruct (decide (a = q)) as [<-|Hneq].
        -- right. split; [done|]. by rewrite Hq, fs_lookup_insert_eq.
        -- left. by rewrite Hq, fs_lookup_insert_ne.
      * destruct (decide (a = q)) as [<-|Hneq].
        -- by rewrite fs_lookup_insert_eq in Hq1.
        -- right. split; [|done]. by rewrite fs_lookup_insert_ne in Hq1.
Qed.

(** The only change [mkdir] makes is on its own chain. *)
Lemma mkdir_chain_changes (chain : list Path) (fs fs' : gmap (list (list N)) node) :
  foldl mkdir_step (Ok fs) chain = Ok fs' ->
  forall q : Path,
    fs_lookup fs' q = fs_lookup fs q \/
    (q ∈ chain /\ fs_lookup fs q = None /\ fs_lookup fs' q = Some Dir).
Proof.
  revert fs. induction chain as [|a chain IH]; intros fs Hfold q.
  - left. by injection Hfold as <-.
  - cbn [foldl] in Hfold. unfold mkdir_step at 2 in Hfold.
    destruct (fs_lookup fs a) as [[data|]|] eqn:Ea.
    + by rewrite mkdir_step_raise in Hfold.
    + destruct (IH _ Hfold q) as [Hq|(Hin & Hq1 & Hq2)]; [by left|].
      right. split; [by right|done].
    + assert (Hne : a <> []) by (intros ->; discriminate Ea).
      destruct (IH _ Hfold q) as [Hq|(Hin & Hq1 & Hq2)].
      * destruct (decide (a = q)) as [<-|Hneq].
        -- right. split; [by left|]. split; [done|].
           by rewrite Hq, fs_lookup_insert_eq.
        -- left. by rewrite Hq, fs_lookup_insert_ne.
      * destruct (decide (a = q)) as [<-|Hneq].
        -- by rewrite fs_lookup_insert_eq in Hq1.
        -- right. split; [by right|]. split; [|done].
           by rewrite fs_lookup_insert_ne in Hq1.
Qed.

Lemma mkdir_fs_read_file (fs fs' : gmap (list (list N)) node) (path q : Path) :
  mkdir_fs fs path = Ok fs' -> read_file fs' q = read_file fs q.
Proof.
  intros H. unfold read_file.
  destruct (mkdir_chain_lookup _ _ _ H q) as [->|[-> ->]]; done.
Qed.

Lemma mkdir_parents_inv (path : Path) (w w' : World) :
  mkdir_parents path w = (Ok tt, w') ->
  exists fs' : gmap (list (list N)) node,
    mkdir_fs (fs w) path = Ok fs' /\
    w' = {| fs := fs'; log := log w; sent := sent w |}.
Proof.
  unfold mkdir_parents. unfold_m.
  destruct (mkdir_fs (fs w) path) as [fs'|e]; [|discriminate].
  intros [= <-]. by exists fs'.
Qed.

Lemma started_fetch_inv (self : Collector) (env : Env) (w w1 : World)
  (r : option WallpaperData) :
  (logger INFO (StartingCollector (market self)) ;;; _fetch_metadata self env) w
    = (Ok r, w1) ->
  _fetch_metadata self env (logged w INFO (StartingCollector (market self))) = (Ok r, w1) /\
  fs w1 = fs w /\
  sent w1 = sent w ++ [metadata_request (market self)].
Proof.
  unfold bind, logger. intros H. split; [exact H|].
  destruct (fetch_metadata_frame self env (logged w INFO (StartingCollector (market self))))
    as [Hfs Hsent].
  rewrite H in Hfs, Hsent. done.
Qed.

(** ** The image download *)

Lemma download_image_raises (self : Collector) (env : Env)
  (url : pystr) (save_path : Path) (w : World) :
  download_failure env url ->
  _download_image self env url save_path w =
    (Raise RequestException,
     {| fs := fs w;
        log := log w ++ [(DEBUG, DownloadingImage url);
                         (ERROR, FailedToDownload RequestException)];
        sent := sent w ++ [image_request url] |}).
Proof.
  intros [Hget|resp Hget Hst]; unfold _download_image; unfold_m;
    rewrite Hget; cbv beta iota; rewrite ?Hst; cbn; by norm_log.
Qed.

(** C9: when the image download fails (network error or HTTP error status),
    [_download_image] raises before the file is opened: the file system is
    the one before the call, and nothing is at the save path that was not
    there. *)
Theorem download_failure_writes_nothing (self : Collector) (env : Env)
  (url : pystr) (save_path : Path) (w : World) :
  download_failure env url ->
  _download_image self env url save_path w =
    (Raise RequestException,
     {| fs := fs w;
        log := log w ++ [(DEBUG, DownloadingImage url);
                         (ERROR, FailedToDownload RequestException)];
        sent := sent w ++ [image_request url] |}) /\
  fs (snd (_download_image self env url save_path w)) = fs w /\
  fs_lookup (fs (snd (_download_image self env url save_path w))) save_path
    = fs_lookup (fs w) save_path.
Proof.
  intros Hfail.
  rewrite (download_image_raises self env url save_path w Hfail). done.
Qed.

(** C3 (as the code has it): in a run that reaches the download (the fetch
    returned a record, the year directory is there, nothing is at the save
    path) and whose download fails by a network error or an HTTP error status
    (400 to 599), [_download_image] logs and re-raises the exception, the
    handler of [run] catches it, the process exits with status 1, and the
    status document is left as it was: its content is the one before the run
    and the entry at its path is the same, but for one case, a path with no
    status document that the year directory lies under, which [mkdir] has
    made a directory. *)
Theorem run_download_failure (self : Collector) (env : Env) (w w1 w2 : World)
  (d : WallpaperData) :
  (logger INFO (StartingCollector (market self)) ;;; _fetch_metadata self env) w
    = (Ok (Some d), w1) ->
  mkdir_parents (year_dir_of self env) w1 = (Ok tt, w2) ->
  path_exists (fs w2) (save_path_of self env d) = false ->
  download_failure env (image_url d) ->
  let w3 :=
    {| fs := fs w2;
       log := log w2 ++ [(DEBUG, DownloadingImage (image_url d));
                         (ERROR, FailedToDownload RequestException)];
       sent := sent w2 ++ [image_request (image_url d)] |} in
  _download_image self env (image_url d) (save_path_of self env d) w2
    = (Raise RequestException, w3) /\
  run self env w = (Raise (SystemExit 1), logged w3 ERROR (CriticalError RequestException)) /\
  exit_status (fst (run self env w)) = 1%Z /\
  read_file (fs (snd (run self env w))) (readme_path self)
    = read_file (fs w) (readme_path self) /\
  (fs_lookup (fs (snd (run self env w))) (readme_path self)
     = fs_lookup (fs w) (readme_path self)
   \/
   (readme_path self ∈ mkdir_chain (year_dir_of self env) /\
    fs_lookup (fs w) (readme_path self) = None /\
    fs_lookup (fs (snd (run self env w))) (readme_path self) = Some Dir)).
Proof.
  intros Hfetch Hmk Habs Hfail w3.
  pose proof (download_image_raises self env (image_url d) (save_path_of self env d) w2 Hfail)
    as Hdl.
  apply started_fetch_inv in Hfetch as (Hfetch & Hfs1 & _).
  split; [exact Hdl|].
  assert (Hrun : run self env w
    = (Raise (SystemExit 1), logged w3 ERROR (CriticalError RequestException))).
  { unfold run. unfold_m. rewrite Hfetch. cbv beta iota. rewrite Hmk. cbv beta iota.
    rewrite Habs. cbv beta iota. rewrite Hdl. reflexivity. }
  rewrite Hrun. split; [done|]. split; [done|].
  apply mkdir_parents_inv in Hmk as (fs' & Hmk & ->). cbn.
  split; [rewrite (mkdir_fs_read_file _ _ _ _ Hmk); by rewrite Hfs1|].
  rewrite <- Hfs1. exact (mkdir_chain_changes _ _ _ Hmk (readme_path self)).
Qed.

Lemma mkdir_fs_lookup_some (fs fs' : gmap (list (list N)) node) (path q : Path) (n : node) :
  mkdir_fs fs path = Ok fs' -> fs_lookup fs q = Some n -> fs_lookup fs' q = Some n.
Proof.
  intros H Hq.
  destruct (mkdir_chain_lookup _ _ _ H q) as [->|[Hnone _]]; [done|congruence].
Qed.

(** C5: in a run whose fetch returned a record and that finds a file at the
    save path (the year directory being there or created), [run] logs and
    returns: the only request sent is the one for the metadata, the status
    document has the content it had, and the file at the save path has the
    bytes it had. *)
Theorem run_skips_existing_file (self : Collector) (env : Env) (w w1 w2 : World)
  (d : WallpaperData) (data : bytes) :
  (logger INFO (StartingCollector (market self)) ;;; _fetch_metadata self env) w
    = (Ok (Some d), w1) ->
  mkdir_parents (year_dir_of self env) w1 = (Ok tt, w2) ->
  read_file (fs w) (save_path_of self env d) = Some data ->
  run self env w = (Ok tt, logged w2 INFO (FileAlreadyExists (save_path_of self env d))) /\
  exit_status (fst (run self env w)) = 0%Z /\
  sent (snd (run self env w)) = sent w ++ [metadata_request (market self)] /\
  read_file (fs (snd (run self env w))) (readme_path self)
    = read_file (fs w) (readme_path self) /\
  read_file (fs (snd (run self env w))) (save_path_of self env d) = Some data.
Proof.
  intros Hfetch Hmk Hfile.
  apply started_fetch_inv in Hfetch as (Hfetch & Hfs1 & Hsent1).
  pose proof Hmk as Hmk'.
  apply mkdir_parents_inv in Hmk' as (fs' & Hmkfs & Hw2).
  assert (Hpresent : path_exists (fs w2) (save_path_of self env d) = true).
  { rewrite Hw2. cbn [fs]. unfold path_exists.
    unfold read_file in Hfile. rewrite <- Hfs1 in Hfile.
    destruct (fs_lookup (fs w1) (save_path_of self env d)) as [n|] eqn:E; [|done].
    by rewrite (mkdir_fs_lookup_some _ _ _ _ _ Hmkfs E). }
  assert (Hrun : run self env w
    = (Ok tt, logged w2 INFO (FileAlreadyExists (save_path_of self env d)))).
  { unfold run. unfold_m. rewrite Hfetch. cbv beta iota. rewrite Hmk. cbv beta iota.
    rewrite Hpresent. reflexivity. }
  rewrite Hrun. split; [done|]. split; [done|].
  rewrite Hw2. cbn [snd logged fs sent].
  rewrite !(mkdir_fs_read_file _ _ _ _ Hmkfs), Hfs1. done.
Qed.

(** ** Writing files *)

Lemma open_for_writing_inv (env : Env) (path : Path) (w w' : World) :
  open_for_writing env path w = (Ok tt, w') ->
  path <> [] /\
  io_fault_at env path <> OpenFault /\
  w' = {| fs := <[path := File []]> (fs w); log := log w; sent := sent w |}.
Proof.
  unfold open_for_writing. unfold_m.
  destruct (is_dir (fs w) (parent path)); cbn; [|discriminate].
  destruct (is_dir (fs w) path) eqn:Ed; cbn; [discriminate|].
  assert (path <> []) by (intros ->; discriminate Ed).
  destruct (io_fault_at env path); intros [= <-]; done.
Qed.

Lemma with_open_w_inv (env : Env) (path : Path) (text : pystr) (w w' : World) :
  with_open_w env path text w = (Ok tt, w') ->
  exists data : bytes,
    utf8_encode text = Some data /\
    io_fault_at env path = NoFault /\
    path <> [] /\
    w' = {| fs := <[path := File data]> (fs w); log := log w; sent := sent w |}.
Proof.
  unfold with_open_w. unfold bind at 1.
  destruct (open_for_writing env path w) as [[[]|e] w0] eqn:Eo; [|discriminate].
  apply open_for_writing_inv in Eo as (Hne & Hopen & ->).
  unfold write_text, write_bytes. unfold_m.
  destruct (utf8_encode text) as [data|]; [|discriminate].
  destruct (io_fault_at env path) eqn:Ef; try discriminate; [|done].
  intros [= <-]. exists data. by rewrite insert_insert_eq.
Qed.

Lemma read_file_insert_file (fs : gmap (list (list N)) node) (path : Path) (data : bytes) :
  path <> [] -> read_file (<[path := File data]> fs) path = Some data.
Proof. intros H. unfold read_file. by rewrite fs_lookup_insert_eq. Qed.

(** When the write succeeds, [_update_readme] logs the update and returns. *)
Lemma update_readme_ok (self : Collector) (env : Env) (d : WallpaperData) (w w' : World) :
  with_open_w env (readme_path self) (readme_content (market self) d) w = (Ok tt, w') ->
  _update_readme self env d w = (Ok tt, logged w' INFO ReadmeUpdated).
Proof.
  intros H. unfold _update_readme. unfold_m. rewrite H. reflexivity.
Qed.

(** When the write raises an [OSError], [_update_readme] logs it and returns. *)
Lemma update_readme_io_error (self : Collector) (env : Env) (d : WallpaperData) (w w' : World) :
  with_open_w env (readme_path self) (readme_content (market self) d) w = (Raise OSError, w') ->
  _update_readme self env d w = (Ok tt, logged w' ERROR (FailedToWriteReadme OSError)).
Proof.
  intros H. unfold _update_readme. unfold_m. rewrite H. reflexivity.
Qed.

(** C7: in a run that reaches the status update (record fetched, directory
    there, nothing at the save path, image downloaded) and in which writing
    the status document raises an I/O error, the error is logged,
    [_update_readme] returns normally, and [run] returns normally: the exit
    status is 0. *)
Theorem run_readme_write_failure (self : Collector) (env : Env)
  (w w1 w2 w3 w4 : World) (d : WallpaperData) :
  (logger INFO (StartingCollector (market self)) ;;; _fetch_metadata self env) w
    = (Ok (Some d), w1) ->
  mkdir_parents (year_dir_of self env) w1 = (Ok tt, w2) ->
  path_exists (fs w2) (save_path_of self env d) = false ->
  _download_image self env (image_url d) (save_path_of self env d) w2 = (Ok tt, w3) ->
  with_open_w env (readme_path self) (readme_content (market self) d) w3
    = (Raise OSError, w4) ->
  _update_readme self env d w3 = (Ok tt, logged w4 ERROR (FailedToWriteReadme OSError)) /\
  run self env w = (Ok tt, logged w4 ERROR (FailedToWriteReadme OSError)) /\
  exit_status (fst (run self env w)) = 0%Z.
Proof.
  intros Hfetch Hmk Habs Hdl Hwrite.
  apply started_fetch_inv in Hfetch as (Hfetch & _ & _).
  pose proof (update_readme_io_error self env d w3 w4 Hwrite) as Hup.
  split; [exact Hup|].
  assert (Hrun : run self env w
    = (Ok tt, logged w4 ERROR (FailedToWriteReadme OSError))).
  { unfold run. unfold_m. rewrite Hfetch. cbv beta iota. rewrite Hmk. cbv beta iota.
    rewrite Habs. cbv beta iota. rewrite Hdl. cbv beta iota. rewrite Hup. reflexivity. }
  rewrite Hrun. done.
Qed.

(** The encoder goes through a concatenation piece by piece. *)
Lemma utf8_encode_app_inv (s t : pystr) (b : bytes) :
  utf8_encode (s ++ t) = Some b ->
  exists x y : bytes, utf8_encode s = Some x /\ utf8_encode t = Some y /\ b = x ++ y.
Proof.
  revert b. induction s as [|c s IH]; intros b H.
  - exists [], b. done.
  - cbn [app utf8_encode] in *.
    destruct (utf8_encode_char c) as [bc|]; [|discriminate].
    destruct (utf8_encode (s ++ t)) as [bs|]; [|discriminate].
    destruct (IH bs eq_refl) as (x & y & -> & Hy & ->).
    injection H as <-. exists (bc ++ x), y. by rewrite app_assoc.
Qed.

(** What [readme_content] encodes to is the template around the five values
    of the market and the record. *)
Lemma readme_content_rendered (market : pystr) (d : WallpaperData) (b : bytes) :
  utf8_encode (readme_content market d) = Some b -> rendered_from market d b.
Proof.
  unfold readme_content. intros H.
  repeat match type of H with
  | utf8_encode (?s ++ _) = Some _ =>
      let x := fresh "x" in
      let y := fresh "y" in
      let Hx := fresh "Hx" in
      apply utf8_encode_app_inv in H as (x & y & Hx & H & ->);
      lazymatch s with
      | py _ => vm_compute in Hx; injection Hx as <-
      | _ :: _ => vm_compute in Hx; injection Hx as <-
      | _ => idtac
      end
  end.
  vm_compute in H. injection H as <-.
  match goal with
  | Hm : utf8_encode market = Some ?bm,
    Hd : utf8_encode (date_str d) = Some ?bd,
    Ht : utf8_encode (title d) = Some ?bt,
    Hu : utf8_encode (image_url d) = Some ?bu,
    Hc : utf8_encode (copyright d) = Some ?bc |- _ =>
      exists bm, bd, bt, bu, bc; repeat (split; [assumption|])
  end.
  vm_compute. reflexivity.
Qed.

Lemma parent_neq (path : Path) : path <> [] -> parent path <> path.
Proof.
  intros Hne Heq. apply (f_equal length) in Heq.
  unfold parent in Heq. rewrite removelast_firstn_len, length_take in Heq.
  destruct path; [done|]. cbn [length] in Heq. lia.
Qed.

(** A text UTF-8 can encode, written to a file that can be opened, with no
    fault: the file holds the encoded text. *)
Lemma with_open_w_written (env : Env) (path : Path) (text : pystr) (data : bytes)
  (w : World) :
  is_dir (fs w) (parent path) = true ->
  is_dir (fs w) path = false ->
  io_fault_at env path = NoFault ->
  utf8_encode text = Some data ->
  with_open_w env path text w
    = (Ok tt, {| fs := <[path := File data]> (fs w); log := log w; sent := sent w |}).
Proof.
  intros Hp Hd Hf Henc.
  unfold with_open_w, open_for_writing, write_text, write_bytes. unfold_m.
  rewrite Hp, Hd. cbn [negb]. rewrite Hf, Henc. cbn [fs log sent].
  by rewrite insert_insert_eq.
Qed.

(** C6 (as the code has it): for a record whose document UTF-8 can encode,
    an update of the status document that meets no I/O error (the directory
    of the document is there, its path is no directory, the system reports
    no fault) returns normally and replaces the whole content by the
    template around the market code and the date, title, image URL and
    copyright of the record, with the archive link, in UTF-8.  After two
    such updates with two records the document is the template of the second
    record, and the file system is the one the second update alone would
    have left: nothing of the first record remains. *)
Theorem update_readme_replaces (self : Collector) (env1 env2 : Env)
  (d1 d2 : WallpaperData) (b1 b2 : bytes) (w : World) :
  is_dir (fs w) (parent (readme_path self)) = true ->
  is_dir (fs w) (readme_path self) = false ->
  io_fault_at env1 (readme_path self) = NoFault ->
  io_fault_at env2 (readme_path self) = NoFault ->
  utf8_encode (readme_content (market self) d1) = Some b1 ->
  utf8_encode (readme_content (market self) d2) = Some b2 ->
  let w1 := {| fs := <[readme_path self := File b1]> (fs w);
               log := log w ++ [(INFO, ReadmeUpdated)]; sent := sent w |} in
  let w2 := {| fs := <[readme_path self := File b2]> (fs w);
               log := log w1 ++ [(INFO, ReadmeUpdated)]; sent := sent w |} in
  _update_readme self env1 d1 w = (Ok tt, w1) /\
  read_file (fs w1) (readme_path self) = Some b1 /\
  rendered_from (market self) d1 b1 /\
  _update_readme self env2 d2 w1 = (Ok tt, w2) /\
  read_file (fs w2) (readme_path self) = Some b2 /\
  rendered_from (market self) d2 b2 /\
  fs w2 = fs (snd (_update_readme self env2 d2 w)).
Proof.
  intros Hp Hd Hf1 Hf2 Hb1 Hb2 w1 w2.
  assert (Hne : readme_path self <> [])
    by (intros Heq; rewrite Heq in Hd; discriminate Hd).
  assert (Hp1 : is_dir (fs w1) (parent (readme_path self)) = true).
  { unfold is_dir, w1. cbn [fs]. rewrite fs_lookup_insert_ne; [exact Hp|].
    intros Heq. by apply (parent_neq _ Hne). }
  assert (Hd1 : is_dir (fs w1) (readme_path self) = false).
  { unfold is_dir, w1. cbn [fs]. by rewrite fs_lookup_insert_eq. }
  pose proof (with_open_w_written env1 _ _ _ w Hp Hd Hf1 Hb1) as E1.
  pose proof (with_open_w_written env2 _ _ _ w1 Hp1 Hd1 Hf2 Hb2) as E2.
  pose proof (with_open_w_written env2 _ _ _ w Hp Hd Hf2 Hb2) as E3.
  apply update_readme_ok in E1, E2, E3.
  split; [exact E1|].
  split; [by apply read_file_insert_file|].
  split; [by apply readme_content_rendered|].
  split; [rewrite E2; unfold w1, w2, logged; cbn [fs log sent]; by rewrite insert_insert_eq|].
  split; [by apply read_file_insert_file|].
  split; [by apply readme_content_rendered|].
  by rewrite E3.
Qed.

(** ** The project root *)

Lemma any_anchor_exists_default (fs : gmap (list (list N)) node) (path : Path) :
  any_anchor_exists fs path anchor_files = has_marker fs path.
Proof.
  unfold has_marker, anchor_files. cbn [any_anchor_exists].
  change (joinpath path (py ".git")) with (path ++ [py ".git"]).
  change (joinpath path (py "pyproject.toml")) with (path ++ [py "pyproject.toml"]).
  change (joinpath path (py "requirements.txt")) with (path ++ [py "requirements.txt"]).
  repeat (destruct (path_exists fs _); [done|]). done.
Qed.

(** The paths the search visits are the prefixes of the location, the
    longest first. *)
Lemma candidates_prefixes (current_path : Path) :
  current_path :: parents current_path
  = map (fun k => take k current_path) (rev (seq 0 (S (length current_path)))).
Proof.
  unfold parents. rewrite seq_S, rev_app_distr. cbn [rev app map Nat.add].
  rewrite firstn_all. f_equal. by rewrite map_rev.
Qed.

Lemma search_upward_prefixes (fs : gmap (list (list N)) node) (anchors : list pystr)
  (path : Path) (m : nat) :
  match search_upward fs anchors (map (fun k => take k path) (rev (seq 0 m))) with
  | Some root =>
      exists k : nat,
        (k < m)%nat /\ root = take k path /\
        any_anchor_exists fs root anchors = true /\
        forall j : nat, (k < j)%nat -> (j < m)%nat ->
          any_anchor_exists fs (take j path) anchors = false
  | None =>
      forall j : nat, (j < m)%nat -> any_anchor_exists fs (take j path) anchors = false
  end.
Proof.
  induction m as [|m IH].
  - cbn. intros j Hj. lia.
  - rewrite seq_S, rev_app_distr. cbn [rev app map Nat.add search_upward].
    destruct (any_anchor_exists fs (take m path) anchors) eqn:Em.
    + exists m. repeat split; [lia|done|]. intros j H1 H2. lia.
    + destruct (search_upward fs anchors (map (fun k => take k path) (rev (seq 0 m))))
        as [root|].
      * destruct IH as (k & Hk & -> & Hroot & Habove).
        exists k. repeat split; [lia|done|]. intros j H1 H2.
        destruct (decide (j = m)) as [->|Hne]; [done|]. apply Habove; lia.
      * intros j Hj. destruct (decide (j = m)) as [->|Hne]; [done|]. apply IH. lia.
Qed.

(** C8: [get_project_root] returns the first path, walking upward from the
    location of the program through its ancestors (the location itself
    included), that contains [.git], [pyproject.toml] or [requirements.txt]:
    the longest prefix of the location with a marker.  When no prefix down to
    the root has one, it returns the parent of the location. *)
Theorem get_project_root_spec (fs : gmap (list (list N)) node) (current_path : Path) :
  let root := get_project_root anchor_files fs current_path in
  (exists k : nat,
     (k <= length current_path)%nat /\
     root = take k current_path /\
     has_marker fs root = true /\
     forall j : nat, (k < j)%nat -> (j <= length current_path)%nat ->
       has_marker fs (take j current_path) = false)
  \/
  ((forall j : nat, (j <= length current_path)%nat ->
      has_marker fs (take j current_path) = false) /\
   root = parent current_path).
Proof.
  unfold get_project_root. rewrite candidates_prefixes.
  pose proof (search_upward_prefixes fs anchor_files current_path (S (length current_path)))
    as H.
  destruct (search_upward fs anchor_files
              (map (fun k => take k current_path) (rev (seq 0 (S (length current_path))))))
    as [root|].
  - left. destruct H as (k & Hk & -> & Hroot & Habove).
    exists k. rewrite <- any_anchor_exists_default.
    repeat split; [lia|done|]. intros j H1 H2.
    rewrite <- any_anchor_exists_default. apply Habove; lia.
  - right. split; [|done]. intros j Hj.
    rewrite <- any_anchor_exists_default. apply H. lia.
Qed.

(** ** The statements on the sample inputs *)

Example get_project_root_checkout :
  get_project_root anchor_files Sample.fs_repo [py "repo"; py "src"; py "main.py"]
  = [py "repo"].
Proof. vm_compute. reflexivity. Qed.

Example get_project_root_fallback :
  get_project_root anchor_files ∅ [py "repo"; py "src"; py "main.py"]
  = [py "repo"; py "src"].
Proof. vm_compute. reflexivity. Qed.

Example init_checkout :
  fst (__init__ Sample.env_ok (py "archives") (py "en-US") Sample.world_repo)
  = Ok (Sample.collector (py "en-US")).
Proof. vm_compute. reflexivity. Qed.

Lemma run_without_metadata_witness :
  metadata_failure Sample.env_no_images (Sample.collector (py "en-US")) /\
  exit_status (fst (run (Sample.collector (py "en-US")) Sample.env_no_images Sample.world_repo))
    = 0%Z /\
  fs (snd (run (Sample.collector (py "en-US")) Sample.env_no_images Sample.world_repo))
    = fs Sample.world_repo.
Proof.
  assert (H : metadata_failure Sample.env_no_images (Sample.collector (py "en-US"))).
  { apply (metadata_no_images _ _ Sample.empty_body_response); vm_compute; reflexivity. }
  split; [exact H|].
  destruct (run_without_metadata (Sample.collector (py "en-US")) Sample.env_no_images
              Sample.world_repo H) as (e & _ & _ & H1 & H2).
  split; assumption.
Defined.

Lemma download_failure_writes_nothing_witness :
  download_failure Sample.env_500 (image_url Sample.mountain_record) /\
  fs (snd (_download_image (Sample.collector (py "en-US")) Sample.env_500
             (image_url Sample.mountain_record) Sample.mountain_path Sample.world_repo))
    = fs Sample.world_repo.
Proof.
  assert (H : download_failure Sample.env_500 (image_url Sample.mountain_record)).
  { apply (download_http_error _ _ (Sample.image_response 500)); vm_compute; reflexivity. }
  split; [exact H|].
  destruct (download_failure_writes_nothing (Sample.collector (py "en-US")) Sample.env_500
              (image_url Sample.mountain_record) Sample.mountain_path Sample.world_repo H)
    as (_ & H1 & _).
  exact H1.
Defined.

Lemma run_download_failure_witness :
  download_failure Sample.env_500 (image_url Sample.mountain_record) /\
  exit_status (fst (run (Sample.collector (py "en-US")) Sample.env_500 Sample.world_repo))
    = 1%Z /\
  read_file (fs (snd (run (Sample.collector (py "en-US")) Sample.env_500 Sample.world_repo)))
    [py "repo"; py "README.md"]
  = read_file (fs Sample.world_repo) [py "repo"; py "README.md"].
Proof.
  assert (H : download_failure Sample.env_500 (image_url Sample.mountain_record)).
  { apply (download_http_error _ _ (Sample.image_response 500)); vm_compute; reflexivity. }
  split; [exact H|].
  destruct (run_download_failure (Sample.collector (py "en-US")) Sample.env_500
              Sample.world_repo _ _ Sample.mountain_record eq_refl eq_refl eq_refl H)
    as (_ & _ & H1 & H2 & _).
  split; assumption.
Defined.

(** C3 (as the specification words it) fails twice.  A status that is not
    2xx is not always a failure: with the answer 304 (which has no body) to
    the image request, [raise_for_status] raises nothing, the empty body is
    saved, the status document is rewritten and the process exits with
    status 0.  And a failed download does not always leave the path of the
    status document as it was: with the output directory [README.md] in a
    checkout without status document, the answer 500 ends the run with
    status 1 after [mkdir] has made [README.md] a directory. *)
Lemma run_download_failure_counterexample :
  let self := Sample.collector (py "en-US") in
  let r := run self Sample.env_304 Sample.world_repo in
  let r' := main Sample.env_500 (Some (py "README.md")) (Some (py "en-US"))
              Sample.world_no_readme in
  (http_get Sample.env_304 (image_request (image_url Sample.mountain_record))
     = GetReturns Sample.not_modified_response /\
   is_2xx (status_code Sample.not_modified_response) = false /\
   content Sample.not_modified_response = [] /\
   fst r = Ok tt /\
   exit_status (fst r) = 0%Z /\
   read_file (fs (snd r)) Sample.mountain_path = Some [] /\
   read_file (fs (snd r)) (readme_path self)
     <> read_file (fs Sample.world_repo) (readme_path self))
  /\
  (download_failure Sample.env_500 (image_url Sample.mountain_record) /\
   exit_status (fst r') = 1%Z /\
   fs_lookup (fs Sample.world_no_readme) [py "repo"; py "README.md"] = None /\
   fs_lookup (fs (snd r')) [py "repo"; py "README.md"] = Some Dir).
Proof.
  split.
  - repeat split; try (vm_compute; reflexivity).
    intros H. vm_compute in H. discriminate H.
  - split.
    { apply (download_http_error _ _ (Sample.image_response 500)); vm_compute; reflexivity. }
    repeat split; vm_compute; reflexivity.
Qed.

Lemma run_skips_existing_file_witness :
  let self := Sample.collector (py "en-US") in
  let r := run self Sample.env_ok Sample.world_collected in
  read_file (fs Sample.world_collected) (save_path_of self Sample.env_ok Sample.mountain_record)
    = Some [Byte.x01; Byte.x02] /\
  fst r = Ok tt /\
  sent (snd r) = [metadata_request (py "en-US")] /\
  read_file (fs (snd r)) (save_path_of self Sample.env_ok Sample.mountain_record)
    = Some [Byte.x01; Byte.x02].
Proof.
  intros self r.
  assert (H : read_file (fs Sample.world_collected)
                (save_path_of self Sample.env_ok Sample.mountain_record)
              = Some [Byte.x01; Byte.x02]) by (vm_compute; reflexivity).
  split; [exact H|].
  destruct (run_skips_existing_file self Sample.env_ok Sample.world_collected _ _
              Sample.mountain_record [Byte.x01; Byte.x02] eq_refl eq_refl H)
    as (H1 & _ & H2 & _ & H3).
  split; [exact (f_equal fst H1)|]. split; assumption.
Defined.

Lemma run_readme_write_failure_witness :
  let self := Sample.collector (py "en-US") in
  let r := run self Sample.env_readme_locked Sample.world_repo in
  io_fault_at Sample.env_readme_locked (readme_path self) = OpenFault /\
  fst r = Ok tt /\
  exit_status (fst r) = 0%Z.
Proof.
  intros self r.
  split; [vm_compute; reflexivity|].
  destruct (run_readme_write_failure self Sample.env_readme_locked Sample.world_repo
              _ _ _ _ Sample.mountain_record eq_refl eq_refl eq_refl eq_refl eq_refl)
    as (_ & H1 & H2).
  split; [exact (f_equal fst H1)|exact H2].
Defined.

Lemma update_readme_replaces_witness :
  let self := Sample.collector (py "en-US") in
  let w1 := snd (_update_readme self Sample.env_ok Sample.mountain_record Sample.world_repo) in
  let w2 := snd (_update_readme self Sample.env_ok Sample.second_record w1) in
  (exists b1 : bytes,
     read_file (fs w1) (readme_path self) = Some b1 /\
     rendered_from (py "en-US") Sample.mountain_record b1) /\
  (exists b2 : bytes,
     read_file (fs w2) (readme_path self) = Some b2 /\
     rendered_from (py "en-US") Sample.second_record b2) /\
  fs w2 = fs (snd (_update_readme self Sample.env_ok Sample.second_record Sample.world_repo)).
Proof.
  intros self w1 w2.
  destruct (update_readme_replaces self Sample.env_ok Sample.env_ok
              Sample.mountain_record Sample.second_record _ _ Sample.world_repo
              eq_refl eq_refl eq_refl eq_refl eq_refl eq_refl)
    as (E1 & H1 & R1 & E2 & H2 & R2 & H3).
  subst w2 w1. rewrite E1. cbn [snd]. rewrite E2. cbn [snd].
  split; [eexists; split; [exact H1|exact R1]|].
  split; [eexists; split; [exact H2|exact R2]|].
  exact H3.
Defined.

(** C6 (as the specification words it) fails, on the record and on the
    update.  The document of a record whose copyright holds a lone surrogate
    has no UTF-8 encoding: the update opens the status document, which
    empties it, and raises [UnicodeEncodeError] past its handler; the
    document is not the template of that record.  And an update whose write
    is refused by the operating system returns normally and leaves the old
    content. *)
Lemma update_readme_replaces_counterexample :
  let self := Sample.collector (py "en-US") in
  let r := _update_readme self Sample.env_ok Sample.surrogate_record Sample.world_repo in
  let r' := _update_readme self Sample.env_readme_locked Sample.mountain_record
              Sample.world_repo in
  (utf8_encode (copyright Sample.surrogate_record) = None /\
   fst r = Raise UnicodeEncodeError /\
   read_file (fs Sample.world_repo) (readme_path self)
     = Some [Byte.x6f; Byte.x6c; Byte.x64] /\
   read_file (fs (snd r)) (readme_path self) = Some [] /\
   ~ (exists b : bytes, rendered_from (market self) Sample.surrogate_record b))
  /\
  (fst r' = Ok tt /\
   read_file (fs (snd r')) (readme_path self) = Some [Byte.x6f; Byte.x6c; Byte.x64] /\
   ~ rendered_from (market self) Sample.mountain_record [Byte.x6f; Byte.x6c; Byte.x64]).
Proof.
  split.
  - repeat split; try (vm_compute; reflexivity).
    intros (b & bm & bd & bt & bu & bc & _ & _ & _ & _ & Hc & _).
    vm_compute in Hc. discriminate Hc.
  - repeat split; try (vm_compute; reflexivity).
    intros (bm & bd & bt & bu & bc & _ & _ & _ & _ & _ & Hb).
    vm_compute in Hb. discriminate Hb.
Qed.

(** The encoder on the characters of the template, and on a lone surrogate. *)
Example utf8_encode_sample :
  utf8_encode [0x1F3DE; 0xFE0F; 0xA9; 65]
  = Some [Byte.xf0; Byte.x9f; Byte.x8f; Byte.x9e; Byte.xef; Byte.xb8; Byte.x8f;
          Byte.xc2; Byte.xa9; Byte.x41]
  /\ utf8_encode [65; 0xD800] = None.
Proof. split; vm_compute; reflexivity. Qed.

(** The status document of the sample record, byte for byte. *)
Example readme_content_sample :
  utf8_encode (readme_content (py "en-US") Sample.mountain_record)
  = Some (list_byte_of_string
"# 🏞️ Bing Daily Wallpaper

> 🤖 Auto-collected by GitHub Actions.
> Market: en-US

## 📅 Today (2024-01-15)

![Mountain View (© Example Corp)](https://www.bing.com/th?id=ABC123)

> **Mountain View (© Example Corp)**

## 🗄️ Archives
- [View Archives](archives/)
").
Proof. vm_compute. reflexivity. Qed.

(** ** A complete run *)

(** In a run that goes through the five steps (record fetched, year
    directory there or created, nothing at the save path, image downloaded,
    status document written), [run] returns normally with exit status 0 and
    the status document is the template of the fetched record, whatever it
    held before. *)
Theorem run_complete_cycle (self : Collector) (env : Env)
  (w w1 w2 w3 w4 : World) (d : WallpaperData) :
  (logger INFO (StartingCollector (market self)) ;;; _fetch_metadata self env) w
    = (Ok (Some d), w1) ->
  mkdir_parents (year_dir_of self env) w1 = (Ok tt, w2) ->
  path_exists (fs w2) (save_path_of self env d) = false ->
  _download_image self env (image_url d) (save_path_of self env d) w2 = (Ok tt, w3) ->
  with_open_w env (readme_path self) (readme_content (market self) d) w3 = (Ok tt, w4) ->
  run self env w = (Ok tt, logged w4 INFO ReadmeUpdated) /\
  exit_status (fst (run self env w)) = 0%Z /\
  read_file (fs (snd (run self env w))) (readme_path self)
    = utf8_encode (readme_content (market self) d).
Proof.
  intros Hfetch Hmk Habs Hdl Hwrite.
  apply started_fetch_inv in Hfetch as (Hfetch & _ & _).
  pose proof (update_readme_ok self env d w3 w4 Hwrite) as Hup.
  assert (Hrun : run self env w = (Ok tt, logged w4 INFO ReadmeUpdated)).
  { unfold run. unfold_m. rewrite Hfetch. cbv beta iota. rewrite Hmk. cbv beta iota.
    rewrite Habs. cbv beta iota. rewrite Hdl. cbv beta iota. rewrite Hup. reflexivity. }
  rewrite Hrun. split; [done|]. split; [done|].
  apply with_open_w_inv in Hwrite as (data & Hdata & _ & Hne & ->).
  cbn [snd logged fs]. by rewrite Hdata, read_file_insert_file.
Qed.

Lemma run_complete_cycle_witness :
  let self := Sample.collector (py "en-US") in
  let r := run self Sample.env_ok Sample.world_repo in
  fst r = Ok tt /\
  exit_status (fst r) = 0%Z /\
  read_file (fs (snd r)) (readme_path self)
    = utf8_encode (readme_content (py "en-US") Sample.mountain_record).
Proof.
  intros self r.
  destruct (run_complete_cycle self Sample.env_ok Sample.world_repo _ _ _ _
              Sample.mountain_record eq_refl eq_refl eq_refl eq_refl eq_refl)
    as (H1 & H2 & H3).
  split; [exact (f_equal fst H1)|]. split; assumption.
Defined.

(** The script on the sample checkout, with the default options. *)
Example main_sample :
  let r := main Sample.env_ok None None Sample.world_repo in
  exit_status (fst r) = 0%Z /\
  read_file (fs (snd r)) Sample.mountain_path
    = Some (content (Sample.image_response 200)) /\
  sent (snd r) = [metadata_request (py "zh-CN");
                  image_request (py "https://www.bing.com/th?id=ABC123")].
Proof. repeat split; vm_compute; reflexivity. Qed.

(** * Further properties *)

(** ** More on the sanitiser and the file name *)

Lemma lstrip_id (s : pystr) : head_isspace s = false -> lstrip s = s.
Proof.
  destruct s as [|c t]; [done|]. unfold head_isspace. cbn. by intros ->.
Qed.

Lemma rstrip_id (s : pystr) : last_isspace s = false -> rstrip s = s.
Proof.
  unfold last_isspace.
  induction s as [|c t IH]; [done|].
  rewrite rstrip_cons. destruct t as [|h r].
  - cbn. by intros ->.
  - rewrite last_cons_cons. intros H. by rewrite (IH H).
Qed.

Lemma strip_id (s : pystr) :
  head_isspace s = false -> last_isspace s = false -> strip s = s.
Proof. intros H1 H2. unfold strip. by rewrite (lstrip_id s H1), rstrip_id. Qed.

(** The strings [_clean_filename] leaves alone are exactly the strings
    with none of the nine characters and no whitespace at either end: with
    the idempotence, they are exactly its results. *)
Theorem clean_filename_fixed_point (s : pystr) :
  _clean_filename s = s <->
  Forall (fun c => in_class forbidden_chars c = false) s /\
  head_isspace s = false /\
  last_isspace s = false.
Proof.
  split.
  - intros <-. split; [apply clean_filename_clean|].
    split; [apply head_isspace_strip|apply last_isspace_strip].
  - intros (Hc & Hh & Hl). unfold _clean_filename.
    rewrite (re_sub_class_id _ _ Hc). by apply strip_id.
Qed.

Lemma lstrip_sublist (s : pystr) : lstrip s `sublist_of` s.
Proof.
  induction s as [|c t IH]; cbn; [done|].
  destruct (isspace c); [by apply sublist_cons|done].
Qed.

Lemma rstrip_sublist (s : pystr) : rstrip s `sublist_of` s.
Proof.
  induction s as [|c t IH]; [done|].
  rewrite rstrip_cons. destruct (rstrip t) as [|h r].
  - destruct (isspace c); [apply sublist_nil_l|].
    apply sublist_skip, sublist_nil_l.
  - by apply sublist_skip.
Qed.

Lemma re_sub_class_sublist (cls : list N) (s : pystr) :
  re_sub_class cls s `sublist_of` s.
Proof.
  induction s as [|c t IH]; cbn; [done|].
  destruct (in_class cls c); [by apply sublist_cons|by apply sublist_skip].
Qed.

Lemma split_first_sublist (sep : N) (s : pystr) : split_first sep s `sublist_of` s.
Proof.
  induction s as [|c t IH]; cbn; [done|].
  destruct (c =? sep); [apply sublist_nil_l|by apply sublist_skip].
Qed.

Lemma split_first_no_sep (sep : N) (s : pystr) : sep ∉ split_first sep s.
Proof.
  induction s as [|c t IH]; cbn; [apply not_elem_of_nil|].
  destruct (c =? sep) eqn:E; [apply not_elem_of_nil|].
  apply not_elem_of_cons. split; [|done].
  intros ->. by rewrite N.eqb_refl in E.
Qed.

Lemma strip_sublist (s : pystr) : strip s `sublist_of` s.
Proof. unfold strip. etrans; [apply rstrip_sublist|apply lstrip_sublist]. Qed.

(** The title part of the file name is made of characters of the caption,
    in their order: nothing is added or replaced.  It holds no opening
    parenthesis and is no longer than the caption. *)
Theorem filename_title_from_caption (url_suffix caption enddate : pystr) :
  exists title_clean : pystr,
    filename (build_record url_suffix caption enddate)
      = date_str (build_record url_suffix caption enddate)
        ++ py "_" ++ title_clean ++ py ".jpg" /\
    (title_clean `sublist_of` caption) /\
    (40 ∉ title_clean) /\
    (length title_clean <= length caption)%nat.
Proof.
  exists (_clean_filename (strip (split_first 40 caption))).
  assert (Hsub1 : _clean_filename (strip (split_first 40 caption))
                    `sublist_of` split_first 40 caption).
  { unfold _clean_filename.
    etrans; [apply strip_sublist|]. etrans; [apply re_sub_class_sublist|].
    apply strip_sublist. }
  assert (Hsub : _clean_filename (strip (split_first 40 caption)) `sublist_of` caption).
  { etrans; [exact Hsub1|apply split_first_sublist]. }
  split; [reflexivity|]. split; [exact Hsub|]. split.
  - intros Hin. apply (split_first_no_sep 40 caption).
    exact (elem_of_sublist _ _ _ Hin Hsub1).
  - by apply sublist_length.
Qed.

Lemma date_parts (e : pystr) : take 4 e ++ take 2 (drop 4 e) ++ drop 6 e = e.
Proof.
  rewrite <- (take_drop 4 e) at 4. f_equal.
  rewrite <- (take_drop 2 (drop 4 e)) at 2. f_equal.
  by rewrite drop_drop.
Qed.

Lemma filename_build_record (url_suffix caption enddate : pystr) :
  filename (build_record url_suffix caption enddate)
  = take 4 enddate ++ py "-" ++ take 2 (drop 4 enddate) ++ py "-"
    ++ drop 6 enddate ++ py "_"
    ++ _clean_filename (strip (split_first 40 caption)) ++ py ".jpg".
Proof.
  change (filename (build_record url_suffix caption enddate))
    with (insert_hyphens enddate ++ py "_"
          ++ _clean_filename (strip (split_first 40 caption)) ++ py ".jpg").
  unfold insert_hyphens. by rewrite <- !app_assoc.
Qed.

(** The end date is copied into the file name unchecked: the name is free of
    the nine characters exactly when the end date is, and every character of
    the end date is a character of the name.  A slash in the end date is a
    slash in the name. *)
Theorem filename_clean_iff_enddate_clean (url_suffix caption enddate : pystr) :
  (Forall (fun c => in_class forbidden_chars c = false)
     (filename (build_record url_suffix caption enddate))
   <-> Forall (fun c => in_class forbidden_chars c = false) enddate) /\
  (forall c : N,
     c ∈ enddate -> c ∈ filename (build_record url_suffix caption enddate)).
Proof.
  rewrite filename_build_record. split.
  2:{ intros c Hc. rewrite <- (date_parts enddate) in Hc.
      rewrite !elem_of_app in *. tauto. }
  rewrite <- (date_parts enddate) at 4.
  rewrite !Forall_app.
  assert (Hh : Forall (fun c => in_class forbidden_chars c = false) (py "-")).
  { apply List.Forall_forall. intros x Hx. vm_compute in Hx.
    destruct Hx as [<-|[]]. reflexivity. }
  assert (Hu : Forall (fun c => in_class forbidden_chars c = false) (py "_")).
  { apply List.Forall_forall. intros x Hx. vm_compute in Hx.
    destruct Hx as [<-|[]]. reflexivity. }
  assert (Hj : Forall (fun c => in_class forbidden_chars c = false) (py ".jpg")).
  { apply List.Forall_forall. intros x Hx. vm_compute in Hx.
    repeat (destruct Hx as [<-|Hx]; [reflexivity|]). destruct Hx. }
  pose proof (clean_filename_clean (strip (split_first 40 caption))) as Hc.
  tauto.
Qed.

Example filename_with_slash :
  filename (build_record (py "/th?id=1") (py "Title (c)") (py "2024/115"))
    = py "2024-/1-15_Title.jpg" /\
  joinpath [py "repo"; py "archives"; py "2024"]
    (filename (build_record (py "/th?id=1") (py "Title (c)") (py "2024/115")))
    = [py "repo"; py "archives"; py "2024"; py "2024-"; py "1-15_Title.jpg"].
Proof. split; vm_compute; reflexivity. Qed.

(** Two records with the same file name have the same end date, when the end
    dates have eight characters: the names of two days never collide,
    whatever the captions. *)
Theorem filename_determines_date (u1 c1 e1 u2 c2 e2 : pystr) :
  length e1 = 8%nat ->
  length e2 = 8%nat ->
  filename (build_record u1 c1 e1) = filename (build_record u2 c2 e2) ->
  e1 = e2.
Proof.
  intros H1 H2 H.
  do 8 (destruct e1 as [|? e1]; [discriminate|]). destruct e1; [|discriminate].
  do 8 (destruct e2 as [|? e2]; [discriminate|]). destruct e2; [|discriminate].
  rewrite !filename_build_record in H.
  cbn [take drop app firstn skipn] in H.
  by simplify_eq.
Qed.

Lemma filename_determines_date_witness :
  py "20240115" = py "20240115".
Proof.
  apply (filename_determines_date (py "/a") (py "Mountain View (x)") (py "20240115")
           (py "/b") (py "Mountain View (y)") (py "20240115"));
    vm_compute; reflexivity.
Defined.

(** ** More on the metadata fetch *)

(** What the network answers to the metadata request either is one of the
    failures, or has the three fields in its first entry. *)
Lemma metadata_cases (self : Collector) (env : Env) :
  metadata_failure env self \/
  exists (resp : Response) (image_data : gmap (list N) (list N))
         (rest : list (gmap (list N) (list N))) (u c e : pystr),
    http_get env (metadata_request (market self)) = GetReturns resp /\
    raise_for_status resp = Ok tt /\
    json resp !! py "images" = Some (image_data :: rest) /\
    image_data !! py "url" = Some u /\
    image_data !! py "copyright" = Some c /\
    image_data !! py "enddate" = Some e.
Proof.
  destruct (http_get env (metadata_request (market self))) as [|resp] eqn:Hget.
  { left. by apply metadata_network_error. }
  destruct (raise_for_status resp) as [[]|ex] eqn:Hst.
  2:{ left. apply (metadata_http_error _ _ resp); [done|].
      unfold raise_for_status in *. by destruct (_ && _). }
  destruct (json resp !! py "images") as [[|image_data rest]|] eqn:Himg.
  { left. by apply (metadata_empty_images _ _ resp). }
  2:{ left. by apply (metadata_no_images _ _ resp). }
  destruct (image_data !! py "url") as [u|] eqn:Hu.
  2:{ left. apply (metadata_missing_field _ _ resp image_data rest (py "url")); try done.
      by left. }
  destruct (image_data !! py "copyright") as [c|] eqn:Hc.
  2:{ left. apply (metadata_missing_field _ _ resp image_data rest (py "copyright"));
        try done. right. by left. }
  destruct (image_data !! py "enddate") as [e|] eqn:He.
  2:{ left. apply (metadata_missing_field _ _ resp image_data rest (py "enddate"));
        try done. right. right. by left. }
  right. by exists resp, image_data, rest, u, c, e.
Qed.

(** The fetch in any world: the result and the lines logged depend on the
    network only. *)
Lemma fetch_metadata_any_world (self : Collector) (env : Env) :
  exists (r : option WallpaperData) (lines : list (level * message)),
    forall w : World,
      _fetch_metadata self env w =
      (Ok r, {| fs := fs w; log := log w ++ lines;
                sent := sent w ++ [metadata_request (market self)] |}).
Proof.
  destruct (metadata_cases self env)
    as [Hfail|(resp & image_data & rest & u & c & e & H1 & H2 & H3 & H4 & H5 & H6)].
  - destruct (fetch_metadata_none self env Hfail) as [ex Hex].
    exists None, [(DEBUG, FetchingMetadata); (ERROR, ErrorFetchingMetadata ex)].
    exact Hex.
  - exists (Some (build_record u c e)),
      [(DEBUG, FetchingMetadata); (INFO, MetadataFetched (filename (build_record u c e)))].
    intros w. rewrite (fetch_metadata_ok self env w resp image_data rest u c e); try done.
    by rewrite <- app_assoc.
Qed.

(** ** Frames of the file operations *)

Lemma fs_frame_refl (touched : list Path) (fs : gmap (list (list N)) node) :
  fs_frame touched fs fs.
Proof. intros q. done. Qed.

Lemma fs_frame_trans (touched : list Path) (fs1 fs2 fs3 : gmap (list (list N)) node) :
  fs_frame touched fs1 fs2 -> fs_frame touched fs2 fs3 -> fs_frame touched fs1 fs3.
Proof.
  intros H12 H23 q. destruct (H12 q) as (A1 & B1 & C1), (H23 q) as (A2 & B2 & C2).
  repeat split; [tauto|tauto|]. intros Hq. by rewrite C2, C1.
Qed.

Lemma fs_frame_mono (t1 t2 : list Path) (fs fs' : gmap (list (list N)) node) :
  t1 ⊆ t2 -> fs_frame t1 fs fs' -> fs_frame t2 fs fs'.
Proof.
  intros Hsub H q. destruct (H q) as (A & B & C).
  repeat split; [done|done|]. intros Hq. apply C. intros Hin. by apply Hq, Hsub.
Qed.

Lemma fs_frame_insert_file (fs : gmap (list (list N)) node) (p : Path) (data : bytes) :
  is_dir fs p = false -> p <> [] -> fs_frame [p] fs (<[p := File data]> fs).
Proof.
  intros Hd Hne q. destruct (decide (p = q)) as [<-|Hpq].
  - unfold path_exists, is_dir in *. rewrite fs_lookup_insert_eq by done.
    split; [done|]. split; [by rewrite Hd|].
    intros Hq. exfalso. apply Hq. by left.
  - unfold path_exists, is_dir, read_file. by rewrite fs_lookup_insert_ne.
Qed.

Lemma fs_frame_mkdir (fs fs' : gmap (list (list N)) node) (path : Path) :
  mkdir_fs fs path = Ok fs' -> fs_frame [] fs fs'.
Proof.
  intros H q. unfold path_exists, is_dir, read_file.
  destruct (mkdir_chain_lookup _ _ _ H q) as [->|[-> ->]]; done.
Qed.

(** The outcomes of opening a file and writing bytes to it. *)
Lemma with_open_wb_cases (env : Env) (p : Path) (data : bytes) (w : World) :
  ((is_dir (fs w) (parent p) = false \/ is_dir (fs w) p = true
    \/ io_fault_at env p = OpenFault) /\
   with_open_wb env p data w = (Raise OSError, w))
  \/
  (is_dir (fs w) p = false /\ p <> [] /\
   ((exists n : nat,
       io_fault_at env p = WriteFault n /\
       with_open_wb env p data w =
         (Raise OSError,
          {| fs := <[p := File (take n data)]> (fs w); log := log w; sent := sent w |}))
    \/
    (io_fault_at env p = NoFault /\
     with_open_wb env p data w =
       (Ok tt, {| fs := <[p := File data]> (fs w); log := log w; sent := sent w |})))).
Proof.
  unfold with_open_wb, open_for_writing, write_bytes. unfold_m.
  destruct (is_dir (fs w) (parent p)) eqn:Ep; cbn [negb].
  2:{ left. split; [by left|]. by destruct w. }
  destruct (is_dir (fs w) p) eqn:Ed.
  { left. split; [by (right; left)|]. by destruct w. }
  assert (Hne : p <> []) by (intros ->; discriminate Ed).
  destruct (io_fault_at env p) as [| |n] eqn:Ef; cbn [fs log sent].
  - right. repeat split; try done. right. split; [done|].
    by rewrite insert_insert_eq.
  - left. split; [by (right; right)|]. by destruct w.
  - right. repeat split; try done. left. exists n. split; [done|].
    by rewrite insert_insert_eq.
Qed.

Lemma with_open_w_encoded (env : Env) (p : Path) (text : pystr) (data : bytes) (w : World) :
  utf8_encode text = Some data ->
  with_open_w env p text w = with_open_wb env p data w.
Proof.
  intros H. unfold with_open_w, with_open_wb, write_text. by rewrite H.
Qed.

Lemma with_open_w_unencodable (env : Env) (p : Path) (text : pystr) (w : World) :
  utf8_encode text = None ->
  ((is_dir (fs w) (parent p) = false \/ is_dir (fs w) p = true
    \/ io_fault_at env p = OpenFault) /\
   with_open_w env p text w = (Raise OSError, w))
  \/
  (is_dir (fs w) p = false /\ p <> [] /\
   with_open_w env p text w =
     (Raise UnicodeEncodeError,
      {| fs := <[p := File []]> (fs w); log := log w; sent := sent w |})).
Proof.
  intros H. unfold with_open_w, open_for_writing, write_text. rewrite H. unfold_m.
  destruct (is_dir (fs w) (parent p)) eqn:Ep; cbn [negb].
  2:{ left. split; [by left|]. by destruct w. }
  destruct (is_dir (fs w) p) eqn:Ed.
  { left. split; [by (right; left)|]. by destruct w. }
  assert (Hne : p <> []) by (intros ->; discriminate Ed).
  destruct (io_fault_at env p) as [| |n] eqn:Ef; cbn [fs log sent].
  - by right.
  - left. split; [by (right; right)|]. by destruct w.
  - by right.
Qed.

(** ** More on the image download *)

Lemma download_image_ok (self : Collector) (env : Env) (url : pystr) (save_path : Path)
  (w : World) (resp : Response) :
  http_get env (image_request url) = GetReturns resp ->
  raise_for_status resp = Ok tt ->
  is_dir (fs w) (parent save_path) = true ->
  is_dir (fs w) save_path = false ->
  io_fault_at env save_path = NoFault ->
  _download_image self env url save_path w =
    (Ok tt,
     {| fs := <[save_path := File (content resp)]> (fs w);
        log := log w ++ [(DEBUG, DownloadingImage url); (SUCCESS, ImageSaved save_path)];
        sent := sent w ++ [image_request url] |}).
Proof.
  intros Hget Hst Hp Hd Hf.
  unfold _download_image, with_open_wb, open_for_writing, write_bytes. unfold_m.
  rewrite Hget. cbv beta iota. rewrite Hst. cbn [fs log sent].
  rewrite Hp, Hd. cbn [negb]. rewrite Hf. cbn [fs log sent].
  rewrite insert_insert_eq. by norm_log.
Qed.

(** A download that succeeds leaves at the save path exactly the body of the
    response, replacing a file that was there; one request is sent, and no
    other path changes: what is at any other path is what was there. *)
Theorem download_image_saves_body (self : Collector) (env : Env) (url : pystr)
  (save_path : Path) (w : World) (resp : Response) :
  http_get env (image_request url) = GetReturns resp ->
  raise_for_status resp = Ok tt ->
  is_dir (fs w) (parent save_path) = true ->
  is_dir (fs w) save_path = false ->
  io_fault_at env save_path = NoFault ->
  fst (_download_image self env url save_path w) = Ok tt /\
  read_file (fs (snd (_download_image self env url save_path w))) save_path
    = Some (content resp) /\
  sent (snd (_download_image self env url save_path w)) = sent w ++ [image_request url] /\
  fs_frame [save_path] (fs w) (fs (snd (_download_image self env url save_path w))) /\
  (forall q : Path,
     q <> save_path ->
     fs_lookup (fs (snd (_download_image self env url save_path w))) q = fs_lookup (fs w) q).
Proof.
  intros Hget Hst Hp Hd Hf.
  rewrite (download_image_ok self env url save_path w resp Hget Hst Hp Hd Hf).
  assert (Hne : save_path <> []) by (intros ->; discriminate Hd).
  cbn [fst snd fs sent]. split; [done|].
  split; [by apply read_file_insert_file|]. split; [done|].
  split; [by apply fs_frame_insert_file|].
  intros q Hq. by apply fs_lookup_insert_ne.
Qed.

(** An [OSError] when the file is opened (its directory is missing, the path
    is a directory, or the system refuses) is not a [RequestException]: the
    handler of [_download_image] does not see it, nothing is logged about the
    failure there, and the exception leaves the method with the file system
    unchanged. *)
Theorem download_image_open_error (self : Collector) (env : Env) (url : pystr)
  (save_path : Path) (w : World) (resp : Response) :
  http_get env (image_request url) = GetReturns resp ->
  raise_for_status resp = Ok tt ->
  is_dir (fs w) (parent save_path) = false \/ is_dir (fs w) save_path = true
    \/ io_fault_at env save_path = OpenFault ->
  _download_image self env url save_path w =
    (Raise OSError,
     {| fs := fs w;
        log := log w ++ [(DEBUG, DownloadingImage url)];
        sent := sent w ++ [image_request url] |}).
Proof.
  intros Hget Hst Hopen.
  unfold _download_image, with_open_wb, open_for_writing. unfold_m.
  rewrite Hget. cbv beta iota. rewrite Hst. cbn [fs log sent].
  destruct (is_dir (fs w) (parent save_path)) eqn:Ep; cbn [negb]; [|done].
  destruct (is_dir (fs w) save_path) eqn:Ed; [done|].
  destruct Hopen as [?|[?|Hf]]; [done|done|]. by rewrite Hf.
Qed.

(** A write that stops after [n] bytes leaves these [n] bytes at the save
    path: the method raises the [OSError] and removes nothing. *)
Theorem download_image_partial_file (self : Collector) (env : Env) (url : pystr)
  (save_path : Path) (w : World) (resp : Response) (n : nat) :
  http_get env (image_request url) = GetReturns resp ->
  raise_for_status resp = Ok tt ->
  is_dir (fs w) (parent save_path) = true ->
  is_dir (fs w) save_path = false ->
  io_fault_at env save_path = WriteFault n ->
  _download_image self env url save_path w =
    (Raise OSError,
     {| fs := <[save_path := File (take n (content resp))]> (fs w);
        log := log w ++ [(DEBUG, DownloadingImage url)];
        sent := sent w ++ [image_request url] |}) /\
  read_file (fs (snd (_download_image self env url save_path w))) save_path
    = Some (take n (content resp)).
Proof.
  intros Hget Hst Hp Hd Hf.
  assert (Hne : save_path <> []) by (intros ->; discriminate Hd).
  assert (H : _download_image self env url save_path w =
    (Raise OSError,
     {| fs := <[save_path := File (take n (content resp))]> (fs w);
        log := log w ++ [(DEBUG, DownloadingImage url)];
        sent := sent w ++ [image_request url] |})).
  { unfold _download_image, with_open_wb, open_for_writing, write_bytes. unfold_m.
    rewrite Hget. cbv beta iota. rewrite Hst. cbn [fs log sent].
    rewrite Hp, Hd. cbn [negb]. rewrite Hf. cbn [fs log sent].
    by rewrite insert_insert_eq. }
  rewrite H. split; [done|]. by apply read_file_insert_file.
Qed.

(** Every outcome of the download. *)
Lemma download_image_cases (self : Collector) (env : Env) (url : pystr)
  (save_path : Path) (w : World) :
  sent (snd (_download_image self env url save_path w)) = sent w ++ [image_request url] /\
  fs_frame [save_path] (fs w) (fs (snd (_download_image self env url save_path w))) /\
  (fst (_download_image self env url save_path w) = Raise RequestException \/
   fst (_download_image self env url save_path w) = Raise OSError \/
   (exists resp : Response,
      fst (_download_image self env url save_path w) = Ok tt /\
      save_path <> [] /\
      fs (snd (_download_image self env url save_path w))
        = <[save_path := File (content resp)]> (fs w))).
Proof.
  unfold _download_image, with_open_wb, open_for_writing, write_bytes, raise_for_status.
  unfold_m.
  destruct (http_get env (image_request url)) as [|resp]; cbv beta iota.
  { cbn [fst snd fs sent]. split; [done|]. split; [apply fs_frame_refl|by left]. }
  destruct ((400 <=? status_code resp) && (status_code resp <? 600)); cbn [fs log sent].
  { cbn [fst snd fs sent]. split; [done|]. split; [apply fs_frame_refl|by left]. }
  destruct (is_dir (fs w) (parent save_path)); cbn [negb].
  2:{ cbn [fst snd fs sent]. split; [done|]. split; [apply fs_frame_refl|]. right. by left. }
  destruct (is_dir (fs w) save_path) eqn:Ed.
  { cbn [fst snd fs sent]. split; [done|]. split; [apply fs_frame_refl|]. right. by left. }
  assert (Hne : save_path <> []) by (intros ->; discriminate Ed).
  destruct (io_fault_at env save_path) as [| |n]; cbn [fst snd fs log sent];
    rewrite ?insert_insert_eq.
  - split; [done|]. split; [by apply fs_frame_insert_file|].
    right. right. by exists resp.
  - split; [done|]. split; [apply fs_frame_refl|]. right. by left.
  - split; [done|]. split; [by apply fs_frame_insert_file|]. right. by left.
Qed.

(** ** More on the status document *)

(** Every outcome of the update: the method returns, or the text could not
    be encoded. *)
Lemma update_readme_cases (self : Collector) (env : Env) (d : WallpaperData) (w : World) :
  sent (snd (_update_readme self env d w)) = sent w /\
  fs_frame [readme_path self] (fs w) (fs (snd (_update_readme self env d w))) /\
  (fst (_update_readme self env d w) = Ok tt \/
   fst (_update_readme self env d w) = Raise UnicodeEncodeError).
Proof.
  unfold _update_readme, with_open_w, open_for_writing, write_text, write_bytes.
  unfold_m.
  destruct (is_dir (fs w) (parent (readme_path self))); cbn [negb].
  2:{ cbn [fst snd fs sent]. split; [done|]. split; [apply fs_frame_refl|by left]. }
  destruct (is_dir (fs w) (readme_path self)) eqn:Ed.
  { cbn [fst snd fs sent]. split; [done|]. split; [apply fs_frame_refl|by left]. }
  assert (Hne : readme_path self <> [])
    by (intros Heq; rewrite Heq in Ed; discriminate Ed).
  destruct (io_fault_at env (readme_path self)) as [| |n]; cbn [fst snd fs log sent].
  2:{ split; [done|]. split; [apply fs_frame_refl|by left]. }
  all: destruct (utf8_encode (readme_content (market self) d)) as [data|];
    cbn [fst snd fs log sent]; rewrite ?insert_insert_eq;
    (split; [done|]); (split; [by apply fs_frame_insert_file|]); auto.
Qed.

(** A text that UTF-8 cannot encode (a lone surrogate in the caption) is not
    an I/O error: when the file can be opened, [_update_readme] raises
    [UnicodeEncodeError] past its handler and leaves the status document
    empty. *)
Theorem update_readme_unencodable (self : Collector) (env : Env) (d : WallpaperData)
  (w : World) :
  utf8_encode (readme_content (market self) d) = None ->
  is_dir (fs w) (parent (readme_path self)) = true ->
  is_dir (fs w) (readme_path self) = false ->
  io_fault_at env (readme_path self) <> OpenFault ->
  _update_readme self env d w =
    (Raise UnicodeEncodeError,
     {| fs := <[readme_path self := File []]> (fs w); log := log w; sent := sent w |}) /\
  is_IOError UnicodeEncodeError = false /\
  read_file (fs (snd (_update_readme self env d w))) (readme_path self) = Some [].
Proof.
  intros Henc Hp Hd Hf.
  assert (Hne : readme_path self <> [])
    by (intros Heq; rewrite Heq in Hd; discriminate Hd).
  assert (H : _update_readme self env d w =
    (Raise UnicodeEncodeError,
     {| fs := <[readme_path self := File []]> (fs w); log := log w; sent := sent w |})).
  { unfold _update_readme, with_open_w, open_for_writing, write_text. unfold_m.
    rewrite Hp, Hd. cbn [negb].
    destruct (io_fault_at env (readme_path self)); [|done|];
      cbn [fs log sent]; by rewrite Henc. }
  rewrite H. split; [done|]. split; [done|]. by apply read_file_insert_file.
Qed.

(** ** More on directories *)

Lemma mkdir_fs_raise (fs : gmap (list (list N)) node) (path : Path) (e : exn) :
  mkdir_fs fs path = Raise e -> e = OSError.
Proof.
  unfold mkdir_fs. generalize (mkdir_chain path). intros chain. revert fs.
  induction chain as [|a chain IH]; intros fs; [discriminate|].
  cbn [foldl]. unfold mkdir_step at 2.
  destruct (fs_lookup fs a) as [[data|]|].
  - rewrite mkdir_step_raise. by intros [= <-].
  - apply IH.
  - apply IH.
Qed.

Lemma mkdir_chain_all_dirs (chain : list Path) (fs fs' : gmap (list (list N)) node) :
  foldl mkdir_step (Ok fs) chain = Ok fs' ->
  forall q : Path, q ∈ chain -> fs_lookup fs' q = Some Dir.
Proof.
  revert fs. induction chain as [|a chain IH]; intros fs Hfold q Hq.
  - by apply elem_of_nil in Hq.
  - cbn [foldl] in Hfold. unfold mkdir_step at 2 in Hfold.
    apply elem_of_cons in Hq as [->|Hq].
    + destruct (fs_lookup fs a) as [[data|]|] eqn:Ea.
      * by rewrite mkdir_step_raise in Hfold.
      * destruct (mkdir_chain_lookup _ _ _ Hfold a) as [->|[? _]]; [done|congruence].
      * assert (Hne : a <> []) by (intros ->; discriminate Ea).
        destruct (mkdir_chain_lookup _ _ _ Hfold a) as [->|[Hn _]].
        -- by apply fs_lookup_insert_eq.
        -- by rewrite fs_lookup_insert_eq in Hn.
    + destruct (fs_lookup fs a) as [[data|]|] eqn:Ea.
      * by rewrite mkdir_step_raise in Hfold.
      * by apply (IH fs).
      * by apply (IH _ Hfold).
Qed.

Lemma mkdir_chain_noop (chain : list Path) (fs : gmap (list (list N)) node) :
  (forall q : Path, q ∈ chain -> fs_lookup fs q = Some Dir) ->
  foldl mkdir_step (Ok fs) chain = Ok fs.
Proof.
  induction chain as [|a chain IH]; intros H; [done|].
  cbn [foldl]. unfold mkdir_step at 2. rewrite (H a) by (by left).
  apply IH. intros q Hq. apply H. by right.
Qed.



(** ** Every run *)

Lemma fs_frame_weaken_nil (touched : list Path) (fs fs' : gmap (list (list N)) node) :
  fs_frame [] fs fs' -> fs_frame touched fs fs'.
Proof. apply fs_frame_mono. intros q Hq. by apply elem_of_nil in Hq. Qed.

(** What every run does, by the result of the fetch. *)
Lemma run_summary (self : Collector) (env : Env) (w : World) :
  (fst (run self env w) = Ok tt \/ fst (run self env w) = Raise (SystemExit 1)) /\
  match fst (_fetch_metadata self env w) with
  | Ok (Some d) =>
      fs_frame [save_path_of self env d; readme_path self]
        (fs w) (fs (snd (run self env w))) /\
      (sent (snd (run self env w)) = sent w ++ [metadata_request (market self)] \/
       sent (snd (run self env w))
         = sent w ++ [metadata_request (market self); image_request (image_url d)])
  | _ =>
      fs (snd (run self env w)) = fs w /\
      sent (snd (run self env w)) = sent w ++ [metadata_request (market self)]
  end.
Proof.
  destruct (fetch_metadata_any_world self env) as (r0 & lines & Hf).
  rewrite (Hf w). cbn [fst]. unfold run, mkdir_parents. unfold_m. rewrite Hf.
  cbn [fs log sent]. destruct r0 as [d|]; [|cbn; auto].
  cbn [fs log sent].
  destruct (mkdir_fs (fs w) (year_dir_of self env)) as [fs2|e] eqn:Hmk.
  2:{ rewrite (mkdir_fs_raise _ _ _ Hmk). cbn.
      split; [by right|]. split; [apply fs_frame_refl|by left]. }
  pose proof (fs_frame_mkdir _ _ _ Hmk) as Fmk.
  cbn [fs log sent]. destruct (path_exists fs2 (save_path_of self env d)).
  { cbn. split; [by left|]. split; [by apply fs_frame_weaken_nil|by left]. }
  match goal with
  | |- context [_download_image ?a ?b ?c ?p ?w2] =>
      destruct (download_image_cases a b c p w2) as (Hs & Fd & Hc);
      destruct (_download_image a b c p w2) as [r3 w3]
  end.
  cbn [fst snd fs sent] in Hs, Fd, Hc.
  assert (F3 : fs_frame [save_path_of self env d; readme_path self] (fs w) (fs w3)).
  { eapply fs_frame_trans; [by apply fs_frame_weaken_nil|].
    eapply fs_frame_mono; [|exact Fd]. intros q Hq.
    apply list_elem_of_singleton in Hq as ->. by left. }
  assert (S3 : sent w3
    = sent w ++ [metadata_request (market self); image_request (image_url d)]).
  { rewrite Hs. by rewrite <- app_assoc. }
  destruct Hc as [->|[->|(resp & -> & _ & _)]].
  - cbn. split; [by right|]. split; [done|by right].
  - cbn. split; [by right|]. split; [done|by right].
  - destruct (update_readme_cases self env d w3) as (Hs4 & Fu & Hc4).
    destruct (_update_readme self env d w3) as [r4 w4].
    cbn [fst snd fs sent] in Hs4, Fu, Hc4.
    assert (F4 : fs_frame [save_path_of self env d; readme_path self] (fs w) (fs w4)).
    { eapply fs_frame_trans; [exact F3|].
      eapply fs_frame_mono; [|exact Fu]. intros q Hq.
      apply list_elem_of_singleton in Hq as ->. right. by left. }
    destruct Hc4 as [->| ->]; cbn.
    + split; [by left|]. split; [done|right; congruence].
    + split; [by right|]. split; [done|right; congruence].
Qed.

(** [run] ends in one of two ways only: it returns, or it leaves through
    [sys.exit(1)].  No exception of its body escapes the handler, so the
    exit status of the script is 0 or 1. *)
Theorem run_exit_status (self : Collector) (env : Env) (w : World) :
  (fst (run self env w) = Ok tt \/ fst (run self env w) = Raise (SystemExit 1)) /\
  (exit_status (fst (run self env w)) = 0%Z \/ exit_status (fst (run self env w)) = 1%Z).
Proof.
  destruct (run_summary self env w) as [[H|H] _]; rewrite H; cbn; auto.
Qed.

(** [run] writes at two places only: the save path of the fetched record
    and the status document.  Nothing is deleted, no directory is replaced,
    and every other file keeps its bytes; without a record the file system
    is left as it was. *)
Theorem run_frame (self : Collector) (env : Env) (w : World) :
  match fst (_fetch_metadata self env w) with
  | Ok (Some d) =>
      fs_frame [save_path_of self env d; readme_path self]
        (fs w) (fs (snd (run self env w)))
  | _ => fs (snd (run self env w)) = fs w
  end.
Proof.
  destruct (run_summary self env w) as [_ H].
  destruct (fst (_fetch_metadata self env w)) as [[d|]|e]; tauto.
Qed.

(** [run] sends the metadata request first and at most one image request,
    for the URL of the fetched record: nothing is retried. *)
Theorem run_requests (self : Collector) (env : Env) (w : World) :
  sent (snd (run self env w)) = sent w ++ [metadata_request (market self)] \/
  exists d : WallpaperData,
    fst (_fetch_metadata self env w) = Ok (Some d) /\
    sent (snd (run self env w))
      = sent w ++ [metadata_request (market self); image_request (image_url d)].
Proof.
  destruct (run_summary self env w) as [_ H].
  destruct (fst (_fetch_metadata self env w)) as [[d|]|e]; [|tauto|tauto].
  destruct H as [_ [H|H]]; [by left|]. right. by exists d.
Qed.

(** ** Running twice *)

Lemma with_open_w_not_dir (env : Env) (p : Path) (text : pystr) (w w' : World) :
  with_open_w env p text w = (Ok tt, w') -> is_dir (fs w) p = false.
Proof.
  unfold with_open_w, open_for_writing. unfold_m.
  destruct (is_dir (fs w) (parent p)); cbn [negb]; [|discriminate].
  by destruct (is_dir (fs w) p).
Qed.

(** After a complete run, a second run in the same environment changes
    nothing: it fetches the metadata again, finds the file of the day and
    returns, with no image request and the file system as the first run left
    it. *)
Theorem run_twice (self : Collector) (env : Env) (w w1 w2 w3 w4 : World)
  (d : WallpaperData) :
  (logger INFO (StartingCollector (market self)) ;;; _fetch_metadata self env) w
    = (Ok (Some d), w1) ->
  mkdir_parents (year_dir_of self env) w1 = (Ok tt, w2) ->
  path_exists (fs w2) (save_path_of self env d) = false ->
  _download_image self env (image_url d) (save_path_of self env d) w2 = (Ok tt, w3) ->
  with_open_w env (readme_path self) (readme_content (market self) d) w3 = (Ok tt, w4) ->
  let after_first := snd (run self env w) in
  fst (run self env after_first) = Ok tt /\
  fs (snd (run self env after_first)) = fs after_first /\
  sent (snd (run self env after_first))
    = sent after_first ++ [metadata_request (market self)].
Proof.
  intros Hfetch Hmk Habs Hdl Hwrite after_first.
  (* the first run *)
  pose proof Hfetch as Hfetch0.
  apply started_fetch_inv in Hfetch0 as (Hfetch0 & _ & _).
  pose proof (update_readme_ok self env d w3 w4 Hwrite) as Hup.
  assert (Hrun : run self env w = (Ok tt, logged w4 INFO ReadmeUpdated)).
  { unfold run. unfold_m. rewrite Hfetch0. cbv beta iota. rewrite Hmk. cbv beta iota.
    rewrite Habs. cbv beta iota. rewrite Hdl. cbv beta iota. rewrite Hup. reflexivity. }
  subst after_first. rewrite Hrun. cbn [snd].
  (* the fetch gives the same record in any world *)
  destruct (fetch_metadata_any_world self env) as (r0 & lines & Hf).
  rewrite Hf in Hfetch0. injection Hfetch0 as -> _.
  (* the file system after the first run *)
  apply mkdir_parents_inv in Hmk as (fs2 & Hmkfs & ->). cbn [fs] in *.
  destruct (download_image_cases self env (image_url d) (save_path_of self env d)
              {| fs := fs2; log := log w1; sent := sent w1 |}) as (_ & _ & Hc).
  rewrite Hdl in Hc. cbn [fst snd fs] in Hc.
  destruct Hc as [Hc|[Hc|(resp & _ & Hsave & Hfs3)]]; [discriminate Hc|discriminate Hc|].
  pose proof (with_open_w_not_dir _ _ _ _ _ Hwrite) as Hnd.
  apply with_open_w_inv in Hwrite as (data & _ & _ & Hreadme & ->).
  assert (Hdirs : forall q : Path, q ∈ mkdir_chain (year_dir_of self env) ->
            fs_lookup (<[readme_path self := File data]> (fs w3)) q = Some Dir).
  { intros q Hq.
    pose proof (mkdir_chain_all_dirs _ _ _ Hmkfs q Hq) as Hq2.
    assert (Hq3 : fs_lookup (fs w3) q = Some Dir).
    { rewrite Hfs3. rewrite fs_lookup_insert_ne; [done|].
      intros <-. unfold path_exists in Habs. by rewrite Hq2 in Habs. }
    rewrite fs_lookup_insert_ne; [done|].
    intros <-. unfold is_dir in Hnd. by rewrite Hq3 in Hnd. }
  assert (Hpresent : path_exists (<[readme_path self := File data]> (fs w3))
                       (save_path_of self env d) = true).
  { unfold path_exists.
    destruct (decide (readme_path self = save_path_of self env d)) as [<-|Hne].
    - by rewrite fs_lookup_insert_eq.
    - rewrite fs_lookup_insert_ne by done.
      by rewrite Hfs3, fs_lookup_insert_eq. }
  (* the second run *)
  unfold run, mkdir_parents, mkdir_fs. unfold_m. rewrite Hf. cbn [fs log sent].
  rewrite (mkdir_chain_noop _ _ Hdirs). cbn [fs log sent].
  rewrite Hpresent. cbn. done.
Qed.

Lemma run_twice_witness :
  let self := Sample.collector (py "en-US") in
  let after_first := snd (run self Sample.env_ok Sample.world_repo) in
  fst (run self Sample.env_ok after_first) = Ok tt /\
  fs (snd (run self Sample.env_ok after_first)) = fs after_first /\
  sent (snd (run self Sample.env_ok after_first))
    = sent after_first ++ [metadata_request (py "en-US")].
Proof.
  exact (run_twice (Sample.collector (py "en-US")) Sample.env_ok Sample.world_repo
           _ _ _ _ Sample.mountain_record eq_refl eq_refl eq_refl eq_refl eq_refl).
Defined.

(** ** A download that raises *)



(** ** The further statements on the sample inputs *)

Lemma download_image_saves_body_witness :
  let self := Sample.collector (py "en-US") in
  let r := _download_image self Sample.env_ok (image_url Sample.mountain_record)
             Sample.mountain_path Sample.world_collected in
  read_file (fs Sample.world_collected) Sample.mountain_path = Some [Byte.x01; Byte.x02] /\
  fst r = Ok tt /\
  read_file (fs (snd r)) Sample.mountain_path = Some (content (Sample.image_response 200)).
Proof.
  intros self r. split; [vm_compute; reflexivity|].
  destruct (download_image_saves_body self Sample.env_ok (image_url Sample.mountain_record)
              Sample.mountain_path Sample.world_collected (Sample.image_response 200)
              eq_refl eq_refl eq_refl eq_refl eq_refl) as (H1 & H2 & _).
  split; assumption.
Defined.

Lemma download_image_open_error_witness :
  let self := Sample.collector (py "en-US") in
  is_dir (fs Sample.world_repo) (parent Sample.mountain_path) = false /\
  _download_image self Sample.env_ok (image_url Sample.mountain_record)
    Sample.mountain_path Sample.world_repo
  = (Raise OSError,
     {| fs := fs Sample.world_repo;
        log := [(DEBUG, DownloadingImage (image_url Sample.mountain_record))];
        sent := [image_request (image_url Sample.mountain_record)] |}).
Proof.
  intros self. split; [vm_compute; reflexivity|].
  exact (download_image_open_error self Sample.env_ok (image_url Sample.mountain_record)
           Sample.mountain_path Sample.world_repo (Sample.image_response 200)
           eq_refl eq_refl (or_introl eq_refl)).
Defined.

Lemma download_image_partial_file_witness :
  let self := Sample.collector (py "en-US") in
  let r := _download_image self Sample.env_partial (image_url Sample.mountain_record)
             Sample.mountain_path Sample.world_collected in
  fst r = Raise OSError /\
  read_file (fs (snd r)) Sample.mountain_path = Some [Byte.xff; Byte.xd8].
Proof.
  intros self r.
  destruct (download_image_partial_file self Sample.env_partial
              (image_url Sample.mountain_record) Sample.mountain_path
              Sample.world_collected (Sample.image_response 200) 2
              eq_refl eq_refl eq_refl eq_refl eq_refl) as (H1 & H2).
  split; [exact (f_equal fst H1)|exact H2].
Defined.

Lemma update_readme_unencodable_witness :
  let self := Sample.collector (py "en-US") in
  let r := _update_readme self Sample.env_ok Sample.surrogate_record Sample.world_repo in
  utf8_encode (readme_content (market self) Sample.surrogate_record) = None /\
  fst r = Raise UnicodeEncodeError /\
  read_file (fs (snd r)) (readme_path self) = Some [].
Proof.
  intros self r.
  assert (Henc : utf8_encode (readme_content (market self) Sample.surrogate_record) = None)
    by (vm_compute; reflexivity).
  split; [exact Henc|].
  assert (Hf : io_fault_at Sample.env_ok (readme_path self) <> OpenFault)
    by (vm_compute; discriminate).
  destruct (update_readme_unencodable self Sample.env_ok Sample.surrogate_record
              Sample.world_repo Henc eq_refl eq_refl Hf) as (H1 & _ & H2).
  split; [exact (f_equal fst H1)|exact H2].
Defined.

(** ** The project root for any anchors *)

Lemma any_anchor_exists_true (fs : gmap (list (list N)) node) (path : Path)
  (anchors : list pystr) :
  any_anchor_exists fs path anchors = true <->
  exists anchor : pystr, anchor ∈ anchors /\ path_exists fs (joinpath path anchor) = true.
Proof.
  induction anchors as [|a rest IH]; cbn [any_anchor_exists].
  - split; [discriminate|]. intros (anchor & Hin & _). by apply elem_of_nil in Hin.
  - destruct (path_exists fs (joinpath path a)) eqn:Ea.
    + split; [|done]. intros _. exists a. split; [by left|done].
    + rewrite IH. split.
      * intros (anchor & Hin & H). exists anchor. split; [by right|done].
      * intros (anchor & Hin & H). apply elem_of_cons in Hin as [->|Hin]; [congruence|].
        by exists anchor.
Qed.

Lemma parent_prefix (path : Path) : parent path `prefix_of` path.
Proof. unfold parent. rewrite removelast_firstn_len. apply prefix_take. Qed.

(** For any tuple of anchors, the root that [get_project_root] returns is the
    location of the program or one of its ancestors, never a path elsewhere.
    It is the nearest of them that holds an anchor; with no anchor anywhere
    (in particular with an empty tuple) it is the parent of the location. *)
Theorem get_project_root_any_anchors (anchors : list pystr)
  (fs : gmap (list (list N)) node) (current_path : Path) :
  let root := get_project_root anchors fs current_path in
  (root `prefix_of` current_path) /\
  ((exists (k : nat) (anchor : pystr),
      root = take k current_path /\
      anchor ∈ anchors /\
      path_exists fs (joinpath root anchor) = true /\
      forall j : nat, (k < j)%nat -> (j <= length current_path)%nat ->
        any_anchor_exists fs (take j current_path) anchors = false)
   \/
   ((forall j : nat, (j <= length current_path)%nat ->
       any_anchor_exists fs (take j current_path) anchors = false) /\
    root = parent current_path)) /\
  (anchors = [] -> root = parent current_path).
Proof.
  unfold get_project_root. rewrite candidates_prefixes.
  pose proof (search_upward_prefixes fs anchors current_path (S (length current_path)))
    as H.
  destruct (search_upward fs anchors
              (map (fun k => take k current_path) (rev (seq 0 (S (length current_path))))))
    as [root|].
  - destruct H as (k & Hk & -> & Hroot & Habove).
    split; [apply prefix_take|]. split.
    + left. apply any_anchor_exists_true in Hroot as (anchor & Hin & Hex).
      exists k, anchor. repeat split; try done. intros j H1 H2. apply Habove; lia.
    + intros ->. discriminate Hroot.
  - split; [apply parent_prefix|]. split; [|done].
    right. split; [|done]. intros j Hj. apply H. lia.
Qed.

(** ** The image never replaces the status document *)

Lemma split_on_no_sep (sep : N) (s : pystr) : sep ∉ s -> split_on sep s = [s].
Proof.
  induction s as [|c t IH]; [done|]. intros Hs. cbn [split_on].
  apply not_elem_of_cons in Hs as [Hc Ht].
  destruct (c =? sep) eqn:E; [apply N.eqb_eq in E; congruence|].
  by rewrite (IH Ht).
Qed.

Lemma split_on_app_last (sep : N) (s t : pystr) :
  sep ∉ t ->
  exists (l : list pystr) (seg : pystr), split_on sep (s ++ t) = l ++ [seg ++ t].
Proof.
  intros Ht. induction s as [|c s IH].
  - exists [], []. by apply split_on_no_sep.
  - destruct IH as (l & seg & IH). cbn [app split_on]. rewrite IH.
    destruct (c =? sep).
    + by exists ([] :: l), seg.
    + destruct l as [|h l]; cbn [app].
      * by exists [], (c :: seg).
      * by exists ((c :: h) :: l), seg.
Qed.

Lemma joinpath_jpg_last (path : Path) (s : pystr) :
  exists seg : pystr, last (joinpath path (s ++ py ".jpg")) = Some (seg ++ py ".jpg").
Proof.
  assert (Hsep : 47 ∉ py ".jpg").
  { intros H. vm_compute in H. by repeat (apply elem_of_cons in H as [H|H]; [discriminate H|]);
      apply elem_of_nil in H. }
  destruct (split_on_app_last 47 s (py ".jpg") Hsep) as (l & seg & Hsplit).
  exists seg.
  assert (Hparts : parse_parts (s ++ py ".jpg")
                   = List.filter is_part l ++ [seg ++ py ".jpg"]).
  { unfold parse_parts. rewrite Hsplit, List.filter_app. cbn [List.filter].
    assert (is_part (seg ++ py ".jpg") = true) as ->; [|done].
    unfold is_part. apply andb_true_iff. split; apply negb_true_iff, bool_decide_eq_false.
    - intros H. apply (f_equal length) in H. rewrite length_app in H. cbn in H. lia.
    - intros H. apply (f_equal length) in H. rewrite length_app in H. cbn in H. lia. }
  unfold joinpath. destruct (s ++ py ".jpg") as [|c rest] eqn:E.
  { apply (f_equal length) in E. rewrite length_app in E. cbn in E. lia. }
  rewrite Hparts. destruct c as [|p]; [by rewrite app_assoc, last_snoc|].
  destruct (decide (N.pos p = 47)) as [Heq|Hne].
  - injection Heq as ->. by rewrite last_snoc.
  - assert (Hgoal : last (path ++ List.filter is_part l ++ [seg ++ py ".jpg"])
                    = Some (seg ++ py ".jpg")) by (by rewrite app_assoc, last_snoc).
    repeat (destruct p as [p|p|]; try exact Hgoal). congruence.
Qed.

(** The save path of a record is never the path of the status document, when
    this is [README.md] in some directory as [__init__] sets it: the last
    component of the save path ends in [.jpg].  So the download can never
    overwrite the status document. *)
Theorem save_path_is_not_readme (self : Collector) (env : Env) (root : Path)
  (url_suffix caption enddate : pystr) :
  readme_path self = joinpath root (py "README.md") ->
  save_path_of self env (build_record url_suffix caption enddate) <> readme_path self.
Proof.
  intros Hreadme Heq. rewrite Hreadme in Heq.
  change (joinpath root (py "README.md")) with (root ++ [py "README.md"]) in Heq.
  unfold save_path_of in Heq. rewrite filename_build_record in Heq.
  rewrite !app_assoc in Heq.
  destruct (joinpath_jpg_last (year_dir_of self env)
              (((((((take 4 enddate ++ py "-") ++ take 2 (drop 4 enddate)) ++ py "-")
                  ++ drop 6 enddate) ++ py "_")
                ++ _clean_filename (strip (split_first 40 caption)))))
    as (seg & Hlast).
  rewrite Heq, last_snoc in Hlast. injection Hlast as Hlast.
  apply (f_equal last) in Hlast.
  change (py ".jpg") with ([46; 106; 112] ++ [103]) in Hlast.
  rewrite app_assoc, last_snoc in Hlast. vm_compute in Hlast. discriminate Hlast.
Qed.

Lemma save_path_is_not_readme_witness :
  save_path_of (Sample.collector (py "en-US")) Sample.env_ok
    (build_record (py "/th?id=ABC123") Sample.mountain_view (py "20240115"))
  <> readme_path (Sample.collector (py "en-US")).
Proof.
  exact (save_path_is_not_readme (Sample.collector (py "en-US")) Sample.env_ok [py "repo"]
           (py "/th?id=ABC123") Sample.mountain_view (py "20240115") eq_refl).
Defined.
